(** * exercism command-line client: save protocol, path resolution, submit exchange

    A shallow embedding of [SaveAssignment], [IsTest], [FetchAssignments],
    [SubmitAssignment], [UnsubmitAssignment] and the submit action of the
    [main] package, and of [Item.Save] / [Item.Matches] of the [handlers]
    package, together with the properties claimed about them.

    The operating system (file system calls, HTTP transport, JSON codec) is
    not part of the repository; it is modelled here as an explicit world that
    the Go code threads through its calls. *)

From stdpp Require Import gmap strings pretty list.
From Stdlib Require Import ZArith Ascii.

Local Open Scope Z_scope.

(** ** Go's [strings] package (the functions the client uses) *)

Module Strings.

(** [strings.HasPrefix s prefix]. *)
Definition HasPrefix (s prefix : string) : bool := String.prefix prefix s.

(** The slice expression [s[n:]]. *)
Fixpoint slice_from (n : nat) (s : string) : string :=
  match n, s with
  | O, _ => s
  | S n', String _ s' => slice_from n' s'
  | S _, EmptyString => EmptyString
  end.

(** [strings.LastIndex s sep]: index of the last occurrence of [sep] in
    [s], or -1.  [last_index_at i s sep] scans the tail [s] that starts at
    byte offset [i] and prefers the rightmost match. *)
Fixpoint last_index_at (i : Z) (s sep : string) : Z :=
  match s with
  | EmptyString => if String.prefix sep EmptyString then i else -1
  | String _ s' =>
      let r := last_index_at (i + 1) s' sep in
      if 0 <=? r then r
      else if String.prefix sep s then i else -1
  end.

Definition LastIndex (s sep : string) : Z := last_index_at 0 s sep.

(** [strings.Join elems sep]. *)
Fixpoint Join (elems : list string) (sep : string) : string :=
  match elems with
  | [] => ""
  | [e] => e
  | e :: rest => e +:+ sep +:+ Join rest sep
  end.

End Strings.

(** ** Go's [path/filepath] on a Unix build: [Clean] and [Dir] *)

Module Filepath.

Definition is_slash (c : ascii) : bool := bool_decide (c = "/"%char).

(** The path elements between separators, empty ones included. *)
Fixpoint elements (s : string) : list string :=
  match s with
  | EmptyString => [""]
  | String c s' =>
      if is_slash c then "" :: elements s'
      else match elements s' with
           | [] => [String c ""]
           | e :: es => String c e :: es
           end
  end.

(** The lexical pass of [Clean]: drops empty and [.] elements, lets [..]
    cancel the element before it, drops [..] at the root and keeps leading
    [..] of a relative path.  [stack] holds the kept elements, last first. *)
Fixpoint clean_elements (rooted : bool) (stack els : list string) : list string :=
  match els with
  | [] => rev stack
  | e :: els' =>
      if bool_decide (e = "") || bool_decide (e = ".") then
        clean_elements rooted stack els'
      else if bool_decide (e = "..") then
        match stack with
        | top :: below =>
            if bool_decide (top = "..") then clean_elements rooted (e :: stack) els'
            else clean_elements rooted below els'
        | [] =>
            if rooted then clean_elements rooted [] els'
            else clean_elements rooted [e] els'
        end
      else clean_elements rooted (e :: stack) els'
  end.

Definition Clean (path : string) : string :=
  let rooted := String.prefix "/" path in
  let body := Strings.Join (clean_elements rooted [] (elements path)) "/" in
  let out := if rooted then "/" +:+ body else body in
  if bool_decide (out = "") then "." else out.

Fixpoint has_slash (s : string) : bool :=
  match s with
  | EmptyString => false
  | String c s' => is_slash c || has_slash s'
  end.

(** [path[0 : i+1]] for [i] the index of the last separator. *)
Fixpoint upto_last_slash (s : string) : string :=
  match s with
  | EmptyString => ""
  | String c s' =>
      if is_slash c || has_slash s' then String c (upto_last_slash s') else ""
  end.

Definition Dir (path : string) : string := Clean (upto_last_slash path).

End Filepath.

(** ** Go's [errors] and the world the program runs in *)

Inductive Errno := ENOENT | EEXIST | ENOTDIR | EISDIR | EACCES | EIO | ENOSPC.

Global Instance Errno_eq_dec : EqDecision Errno.
Proof. solve_decision. Defined.

(** Failures injected by the environment (permissions, broken media, full
    disk).  A missing file is not a fault: it is read off the tree. *)
Inductive Fault := FaultEACCES | FaultEIO | FaultENOSPC.

Definition fault_errno (f : Fault) : Errno :=
  match f with
  | FaultEACCES => EACCES
  | FaultEIO => EIO
  | FaultENOSPC => ENOSPC
  end.

Definition errno_message (e : Errno) : string :=
  match e with
  | ENOENT => "no such file or directory"
  | EEXIST => "file exists"
  | ENOTDIR => "not a directory"
  | EISDIR => "is a directory"
  | EACCES => "permission denied"
  | EIO => "input/output error"
  | ENOSPC => "no space left on device"
  end.

(** A Go [error] value: an [*os.PathError], or the product of [fmt.Errorf]
    (also used for the opaque errors of the HTTP and JSON libraries). *)
Inductive error :=
  | PathError (op path : string) (errno : Errno)
  | errorString (msg : string).

(** The [Error()] method, which is what [%v] prints for an error. *)
Definition error_Error (e : error) : string :=
  match e with
  | PathError op path errno => op +:+ " " +:+ path +:+ ": " +:+ errno_message errno
  | errorString msg => msg
  end.

Inductive Node := File (content : string) | Directory.

(** ** Go's [net/http]: what the client builds and what comes back *)

(** An [*http.Request]; [Header] is Go's [map[string][]string]. *)
Record Request := {
  Method : string;
  URL : string;
  Header : gmap string (list string);
  Body : option string
}.

(** [req.Header.Set key value]. *)
Definition Header_Set (key value : string) (req : Request) : Request :=
  {| Method := Method req; URL := URL req;
     Header := <[key := [value]]> (Header req); Body := Body req |}.

(** [req.Header.Get key]: the first value, if the program set one. *)
Definition Header_Get (key : string) (req : Request) : option string :=
  match Header req !! key with
  | Some (v :: _) => Some v
  | _ => None
  end.

(** An [*http.Response] with the outcome of [ioutil.ReadAll(resp.Body)]. *)
Record Response := {
  StatusCode : Z;
  ReadAll : string * option error
}.

Inductive Event :=
  | EvMkdir (path : string)
  | EvWriteFile (path content : string)
  | EvPrint (text : string)
  | EvRequest (req : Request).

(** The world: the file tree keyed by cleaned path, the injected faults per
    system call, and the log of what the program did (directories created,
    [WriteFile] calls made, text printed), oldest first. *)
Record World := {
  nodes : gmap string Node;
  statFault : gmap string Fault;
  mkdirFault : gmap string Fault;
  writeFault : gmap string Fault;
  log : list Event
}.

(** Sequential Go code: every call takes the world and hands it on. *)
Definition IO (A : Type) : Type := World -> A * World.

Definition ret {A} (a : A) : IO A := fun w => (a, w).
Definition bind {A B} (m : IO A) (k : A -> IO B) : IO B :=
  fun w => let '(a, w') := m w in k a w'.

Notation "'let*' x ':=' m 'in' k" := (bind m (fun x => k))
  (at level 10, x pattern, m at level 100, k at level 200).
Notation "m ';;' k" := (bind m (fun _ => k))
  (at level 100, k at level 200, right associativity).

Definition emit (e : Event) : IO unit :=
  fun w => (tt, {| nodes := nodes w; statFault := statFault w;
                   mkdirFault := mkdirFault w; writeFault := writeFault w;
                   log := log w ++ [e] |}).

Definition put_node (k : string) (n : Node) : IO unit :=
  fun w => (tt, {| nodes := <[k := n]> (nodes w); statFault := statFault w;
                   mkdirFault := mkdirFault w; writeFault := writeFault w;
                   log := log w |}).

(** The events a computation adds to the log. *)
Definition events_since (w w' : World) : list Event :=
  drop (length (log w)) (log w').

Definition is_write (e : Event) : bool :=
  match e with EvWriteFile _ _ => true | _ => false end.

Definition is_mkdir (e : Event) : bool :=
  match e with EvMkdir _ => true | _ => false end.

Definition is_request (e : Event) : bool :=
  match e with EvRequest _ => true | _ => false end.

(** ** Go's [os] and [io/ioutil] (the calls the client makes) *)

Module OS.

(** [os.IsNotExist]. *)
Definition IsNotExist (err : error) : bool :=
  match err with
  | PathError _ _ ENOENT => true
  | _ => false
  end.

(** [os.Stat]: the node found, or the error. *)
Definition Stat (path : string) : IO (option Node * option error) :=
  fun w =>
    let k := Filepath.Clean path in
    match statFault w !! k with
    | Some f => ((None, Some (PathError "stat" path (fault_errno f))), w)
    | None =>
        match nodes w !! k with
        | Some n => ((Some n, None), w)
        | None => ((None, Some (PathError "stat" path ENOENT)), w)
        end
    end.

(** [os.Mkdir]. *)
Definition Mkdir (path : string) : IO (option error) :=
  fun w =>
    let k := Filepath.Clean path in
    match mkdirFault w !! k with
    | Some f => (Some (PathError "mkdir" path (fault_errno f)), w)
    | None =>
        match nodes w !! k with
        | Some _ => (Some (PathError "mkdir" path EEXIST), w)
        | None => (put_node k Directory ;; emit (EvMkdir k) ;; ret None) w
        end
    end.

(** The path and its ancestors as [MkdirAll] visits them on a cleaned
    path: every prefix that ends before a separator at index 1 or
    later, and the path itself; shortest first. *)
Fixpoint cuts (acc s : string) : list string :=
  match s with
  | EmptyString => [acc]
  | String c s' =>
      let rest := cuts (acc +:+ String c "") s' in
      if Filepath.is_slash c && negb (bool_decide (acc = "")) then acc :: rest else rest
  end.

(** [os.MkdirAll] on the chain [path; parent; grandparent; ...]: a path
    that is a directory ends the call, one that is a file fails it,
    otherwise the parent chain is made first and then [Mkdir] is called. *)
Fixpoint mkdirAll_chain (chain : list string) : IO (option error) :=
  match chain with
  | [] => ret None
  | path :: ancestors =>
      fun w =>
        match nodes w !! Filepath.Clean path with
        | Some Directory => (None, w)
        | Some (File _) => (Some (PathError "mkdir" path ENOTDIR), w)
        | None =>
            (let* err := mkdirAll_chain ancestors in
             match err with
             | Some e => ret (Some e)
             | None => Mkdir path
             end) w
        end
  end.

Definition MkdirAll (path : string) : IO (option error) :=
  mkdirAll_chain (rev (cuts "" path)).

(** [ioutil.WriteFile]: creates the file or truncates an existing one and
    writes [data]; fails on a directory.  A failed call leaves the tree as
    it was. *)
Definition WriteFile (filename data : string) : IO (option error) :=
  fun w =>
    let k := Filepath.Clean filename in
    (emit (EvWriteFile k data) ;;
     fun w =>
       match writeFault w !! k with
       | Some f => (Some (PathError "open" filename (fault_errno f)), w)
       | None =>
           match nodes w !! k with
           | Some Directory => (Some (PathError "open" filename EISDIR), w)
           | _ => (put_node k (File data) ;; ret None) w
           end
       end) w.

End OS.

(** [fmt.Println] of strings: operands separated by spaces, newline added. *)
Definition Println (operands : list string) : IO unit :=
  emit (EvPrint (Strings.Join operands " " +:+ String "010"%char "")).

(** [fmt.Printf] once the format has been expanded. *)
Definition Printf (text : string) : IO unit := emit (EvPrint text).

Definition newline : string := String "010"%char "".

(** ** Package [config] *)

Module Config.

(** Modelled from the spec: the configuration record, which the spec gives as
    [{Hostname, APIKey, Dir}]; package [config] is not among the files at
    hand. *)
Record Config := {
  Hostname : string;
  APIKey : string;
  Dir : string
}.

End Config.

(** ** Package [main] *)

Module Main.

(** [Files] lists the entries of the Go map in the order in which the
    [range] loop visits them; Go leaves that order unspecified, so the
    results below hold for every list. *)
Record Assignment := {
  Track : string;
  Slug : string;
  Files : list (string * string);
  IsFresh : bool
}.

(** The body of the [range a.Files] loop of [SaveAssignment]. *)
Fixpoint SaveAssignment_loop (root : string) (files : list (string * string))
  : IO (option error) :=
  match files with
  | [] => ret None
  | (name, text) :: rest =>
      let file := root +:+ "/" +:+ name in
      let dir := Filepath.Dir file in
      let* err := OS.MkdirAll dir in
      match err with
      | Some err =>
          ret (Some (errorString ("Error making directory " +:+ dir +:+ ": ["
                                  +:+ error_Error err +:+ "]")))
      | None =>
          let* (_, err) := OS.Stat file in
          match err with
          | Some err =>
              if OS.IsNotExist err then
                let* err := OS.WriteFile file text in
                match err with
                | Some err =>
                    ret (Some (errorString ("Error writing file " +:+ name +:+ ": ["
                                            +:+ error_Error err +:+ "]")))
                | None => SaveAssignment_loop root rest
                end
              else SaveAssignment_loop root rest
          | None => SaveAssignment_loop root rest
          end
      end
  end.

Definition SaveAssignment (dir : string) (a : Assignment) : IO (option error) :=
  let root := dir +:+ "/" +:+ Track a +:+ "/" +:+ Slug a in
  let* err := SaveAssignment_loop root (Files a) in
  match err with
  | Some err => ret (Some err)
  | None =>
      let fresh := if IsFresh a then "*" else " " in
      Println [fresh; Track a; "-"; Slug a] ;;
      ret None
  end.

(** *** The exchange with the service and the submit action *)

Definition Version : string := "1.7.0".

Definition msgPleaseAuthenticate : string :=
  "You must be authenticated. Run `exercism configure --key=YOUR_API_KEY`.".

(** The entries of the [testExtensions] map, in the order of the source. *)
Definition testExtensions : list (string * string) :=
  [("ruby", "_test.rb");
   ("js", ".spec.js");
   ("elixir", "_test.exs");
   ("clojure", "_test.clj");
   ("python", "_test.py");
   ("go", "_test.go");
   ("haskell", "_test.hs");
   ("cpp", "_test.cpp")].

(** The [FetchEndpoints] map. *)
Definition FetchEndpoints : gmap string string :=
  list_to_map [("current", "/api/v1/user/assignments/current");
               ("next", "/api/v1/user/assignments/next");
               ("restore", "/api/v1/user/assignments/restore");
               ("exercise", "/api/v1/assignments")].

(** The index expression [m[key]] on a [map[string]string]: the zero value
    for a missing key. *)
Definition map_index (m : gmap string string) (key : string) : string :=
  default "" (m !! key).

Definition FetchEndpoint (args : list string) : string :=
  match args with
  | [] => map_index FetchEndpoints "current"
  | _ =>
      fold_left (fun endpoint arg => endpoint +:+ "/" +:+ arg) args
        (map_index FetchEndpoints "exercise")
  end.

Record submitResponse := {
  ID : string;
  Status : string;
  Language : string;
  Exercise : string;
  SubmissionPath : string;
  Error : string
}.

Record submitRequest := {
  Key : string;
  Code : string;
  Path : string
}.

(** What [%v] prints for a [submitResponse] value: the fields between
    braces, separated by spaces. *)
Definition submitResponse_v (r : submitResponse) : string :=
  "{" +:+ ID r +:+ " " +:+ Status r +:+ " " +:+ Language r +:+ " " +:+ Exercise r
      +:+ " " +:+ SubmissionPath r +:+ " " +:+ Error r +:+ "}".

(** The command line as the action sees it: [ctx.Args()] and
    [ctx.GlobalString("config")]. *)
Record Context := {
  Args : list string;
  GlobalString_config : string
}.

(** What the run takes from outside the repository: the build target, the
    working directory, the configuration reader, the HTTP transport and the
    JSON codec of the standard library. *)
Record Env := {
  GOOS : string;
  GOARCH : string;
  Separator : ascii;
  Getwd : string * option error;
  config_Read : string -> Config.Config * option error;
  IsAuthenticated : Config.Config -> bool;
  NewRequest_error : string -> string -> option error;
  Do : Request -> Response + error;
  Marshal_submitRequest : submitRequest -> string * option error;
  Unmarshal_submitResponse : string -> submitResponse + error;
  Unmarshal_apiError : string -> string + error;
  Unmarshal_unsubmitError : string -> string + error;
  Unmarshal_assignments : string -> list Assignment + error
}.

Section WithEnv.

Variable env : Env.

Definition UserAgent : string :=
  "github.com/exercism/cli v" +:+ Version +:+ " (" +:+ GOOS env +:+ "/"
    +:+ GOARCH env +:+ ")".

(** [http.NewRequest]. *)
Definition NewRequest (method url : string) (body : option string)
  : Request * option error :=
  ({| Method := method; URL := url; Header := ∅; Body := body |},
   NewRequest_error env method url).

(** [http.DefaultMain.Do]: one round trip, recorded in the log. *)
Definition DefaultClient_Do (req : Request) : IO (Response + error) :=
  emit (EvRequest req) ;; ret (Do env req).

Definition FetchAssignments (c : Config.Config) (path : string)
  : IO (list Assignment * option error) :=
  let url := Config.Hostname c +:+ path +:+ "?key=" +:+ Config.APIKey c in
  let '(req, err) := NewRequest "GET" url None in
  match err with
  | Some err => ret ([], Some err)
  | None =>
      let* r := DefaultClient_Do req in
      match r with
      | inr err =>
          ret ([], Some (errorString ("Error fetching assignments: ["
                                      +:+ error_Error err +:+ "]")))
      | inl resp =>
          let '(body, err) := ReadAll resp in
          match err with
          | Some err =>
              ret ([], Some (errorString ("Error fetching assignments: ["
                                          +:+ error_Error err +:+ "]")))
          | None =>
              if negb (StatusCode resp =? 200) then
                match Unmarshal_apiError env body with
                | inr err =>
                    ret ([], Some (errorString ("Error parsing API response: ["
                                                +:+ error_Error err +:+ "]")))
                | inl apiError =>
                    ret ([], Some (errorString
                           ("Error fetching assignments. HTTP Status Code: "
                            +:+ pretty (StatusCode resp) +:+ newline +:+ apiError)))
                end
              else
                match Unmarshal_assignments env body with
                | inr err =>
                    ret ([], Some (errorString ("Error parsing API response: ["
                                                +:+ error_Error err +:+ "]")))
                | inl assignments => ret (assignments, None)
                end
          end
      end
  end.

Definition UnsubmitAssignment (c : Config.Config) : IO (option error) :=
  let path := "api/v1/user/assignments" in
  let url := Config.Hostname c +:+ "/" +:+ path +:+ "?key=" +:+ Config.APIKey c in
  let '(req, err) := NewRequest "DELETE" url None in
  match err with
  | Some err => ret (Some err)
  | None =>
      let req := Header_Set "User-Agent" UserAgent req in
      let* r := DefaultClient_Do req in
      match r with
      | inr err =>
          ret (Some (errorString ("Error destroying submission: ["
                                  +:+ error_Error err +:+ "]")))
      | inl resp =>
          let '(body, err) := ReadAll resp in
          match err with
          | Some err => ret (Some err)
          | None =>
              if negb (StatusCode resp =? 204) then
                match Unmarshal_unsubmitError env body with
                | inr err => ret (Some err)
                | inl ur =>
                    ret (Some (errorString ("Status: " +:+ pretty (StatusCode resp)
                                            +:+ ", Error: " +:+ ur)))
                end
              else ret None
          end
      end
  end.

Definition SubmitAssignment (c : Config.Config) (filePath code : string)
  : IO (option submitResponse * option error) :=
  let path := "api/v1/user/assignments" in
  let url := Config.Hostname c +:+ "/" +:+ path in
  let submission := {| Key := Config.APIKey c; Code := code; Path := filePath |} in
  let '(submissionJSON, err) := Marshal_submitRequest env submission in
  match err with
  | Some err => ret (None, Some err)
  | None =>
      let '(req, err) := NewRequest "POST" url (Some submissionJSON) in
      match err with
      | Some err => ret (None, Some err)
      | None =>
          let req := Header_Set "User-Agent" UserAgent req in
          let req := Header_Set "Content-Type" "application/json" req in
          let* r := DefaultClient_Do req in
          match r with
          | inr err =>
              ret (None, Some (errorString ("Error posting assignment: ["
                                            +:+ error_Error err +:+ "]")))
          | inl resp =>
              let '(body, err) := ReadAll resp in
              match err with
              | Some err => ret (None, Some err)
              | None =>
                  if negb (StatusCode resp =? 201) then
                    match Unmarshal_submitResponse env body with
                    | inr err => ret (None, Some err)
                    | inl r =>
                        ret (None, Some (errorString
                               ("Status: " +:+ pretty (StatusCode resp)
                                +:+ ", Error: " +:+ submitResponse_v r)))
                    end
                  else
                    match Unmarshal_submitResponse env body with
                    | inr err =>
                        ret (None, Some (errorString ("Error parsing API response: ["
                                                      +:+ error_Error err +:+ "]")))
                    | inl r => ret (Some r, None)
                    end
              end
          end
      end
  end.

(** The [range testExtensions] loop of [IsTest] over the entries in the
    order [exts]. *)
Fixpoint IsTest_loop (exts : list (string * string)) (filename : string) : bool :=
  match exts with
  | [] => false
  | (_, ext) :: rest =>
      if 0 <? Strings.LastIndex filename ext then true
      else IsTest_loop rest filename
  end.

Definition IsTest (filename : string) : bool :=
  IsTest_loop testExtensions filename.

(** [filepath.Abs]. *)
Definition filepath_Abs (path : string) : string * option error :=
  if String.prefix "/" path then (Filepath.Clean path, None)
  else
    let '(wd, err) := Getwd env in
    match err with
    | Some err => ("", Some err)
    | None => (Filepath.Clean (wd +:+ "/" +:+ path), None)
    end.

(** [filepath.EvalSymlinks] in a tree without symbolic links: the cleaned
    path when it exists, the error of the lookup otherwise. *)
Definition filepath_EvalSymlinks (path : string) : IO (string * option error) :=
  let* (_, err) := OS.Stat path in
  match err with
  | Some err => ret ("", Some err)
  | None => ret (Filepath.Clean path, None)
  end.

Definition absolutePath (path : string) : IO (string * option error) :=
  let '(path, err) := filepath_Abs path in
  match err with
  | Some err => ret ("", Some err)
  | None => filepath_EvalSymlinks path
  end.

(** [ioutil.ReadFile]. *)
Definition ReadFile (filename : string) : IO (string * option error) :=
  fun w =>
    match nodes w !! Filepath.Clean filename with
    | Some (File content) => ((content, None), w)
    | Some Directory => (("", Some (PathError "read" filename EISDIR)), w)
    | None => (("", Some (PathError "open" filename ENOENT)), w)
    end.

(** The end of the submit action: what is printed for the outcome of
    [SubmitAssignment] (a nil error comes with a response). *)
Definition submitReport (c : Config.Config)
    (result : option submitResponse * option error) : IO unit :=
  match result with
  | (_, Some err) =>
      Printf ("There was an issue with your submission: "
             +:+ error_Error err +:+ newline)
  | (Some response, None) =>
      Printf ("For feedback on your submission visit "
             +:+ Config.Hostname c +:+ "/submissions/" +:+ ID response +:+ newline)
  | (None, None) => ret tt
  end.

(** The [Action] of the [submit] command. *)
Definition submitAction (ctx : Context) : IO unit :=
  match Args ctx with
  | [] => Println ["Please enter a file name"]
  | filename :: _ =>
      let '(c, err) := config_Read env (GlobalString_config ctx) in
      match err with
      | Some err => Println [error_Error err]
      | None =>
          if negb (IsAuthenticated env c) then Println [msgPleaseAuthenticate]
          else
            let* (absPath, err) := absolutePath filename in
            match err with
            | Some err =>
                Printf ("Couldn't find " +:+ filename +:+ ": " +:+ error_Error err
                       +:+ newline)
            | None =>
                let exDir := Config.Dir c +:+ String (Separator env) "" in
                if negb (Strings.HasPrefix absPath exDir) then
                  Printf (absPath +:+ " is not under your exercism project path ("
                         +:+ exDir +:+ ")" +:+ newline)
                else
                  let filename := Strings.slice_from (String.length exDir) absPath in
                  if IsTest filename then
                    Println ["It looks like this is a test, please submit a solution."]
                  else
                    let* (code, err) := ReadFile absPath in
                    match err with
                    | Some err =>
                        Printf ("Error reading " +:+ absPath +:+ ": "
                               +:+ error_Error err +:+ newline)
                    | None =>
                        let* result := SubmitAssignment c filename code in
                        submitReport c result
                    end
            end
      end
  end.

(** The [Action] of the [unsubmit] command. *)
Definition unsubmitAction (ctx : Context) : IO unit :=
  let '(c, err) := config_Read env (GlobalString_config ctx) in
  match err with
  | Some err => Println [error_Error err]
  | None =>
      if negb (IsAuthenticated env c) then Println [msgPleaseAuthenticate]
      else
        let* err := UnsubmitAssignment c in
        match err with
        | Some err => Println [error_Error err]
        | None => Println ["The last submission was successfully deleted."]
        end
  end.

End WithEnv.

End Main.

(** ** Package [api] and package [handlers]: saving an item *)

Module Api.

Record Problem := {
  ID : string;
  TrackID : string;
  Language : string;
  Slug : string;
  Name : string;
  IsFresh : bool;
  Files : list (string * string)
}.

Definition String (p : Problem) : string :=
  Name p +:+ " (" +:+ Language p +:+ ")".

End Api.

Module Handlers.

Record Item := {
  Problem : Api.Problem;
  dir : string;
  isNew : bool;
  isUpdated : bool
}.

Definition set_isNew (it : Item) : Item :=
  {| Problem := Problem it; dir := dir it; isNew := true; isUpdated := isUpdated it |}.

Definition set_isUpdated (it : Item) : Item :=
  {| Problem := Problem it; dir := dir it; isNew := isNew it; isUpdated := true |}.

Definition Path (it : Item) : string :=
  dir it +:+ "/" +:+ Api.ID (Problem it).

(** The filter constants are declared outside the files at hand; [Matches]
    distinguishes [HWNew], [HWUpdated] and any other value. *)
Inductive HWFilter := HWAll | HWUpdated | HWNew.

Definition Matches (it : Item) (filter : HWFilter) : bool :=
  match filter with
  | HWNew => isNew it
  | HWUpdated => isUpdated it
  | HWAll => true
  end.

(** The [range it.Files] loop of [Save]; the receiver is a pointer, so the
    item with its flags is handed on together with the world. *)
Fixpoint Save_loop (it : Item) (files : list (string * string))
  : IO (Item * option error) :=
  match files with
  | [] => ret (it, None)
  | (name, text) :: rest =>
      let file := dir it +:+ "/" +:+ Api.ID (Problem it) +:+ "/" +:+ name in
      let* err := OS.MkdirAll (Filepath.Dir file) in
      match err with
      | Some err => ret (it, Some err)
      | None =>
          let* (_, err) := OS.Stat file in
          match err with
          | Some err =>
              if negb (OS.IsNotExist err) then ret (it, Some err)
              else
                let it := if negb (isNew it) then set_isUpdated it else it in
                let* err := OS.WriteFile file text in
                match err with
                | Some err => ret (it, Some err)
                | None => Save_loop it rest
                end
          | None => Save_loop it rest
          end
      end
  end.

Definition Save (it : Item) : IO (Item * option error) :=
  let* (_, err) := OS.Stat (Path it) in
  match err with
  | Some err =>
      if negb (OS.IsNotExist err) then ret (it, Some err)
      else Save_loop (set_isNew it) (Api.Files (Problem it))
  | None => Save_loop it (Api.Files (Problem it))
  end.

End Handlers.

(** * Vocabulary of the properties and worked inputs *)

(** ** How the world evolves under the file-system calls *)

(** [extends_by evs w w']: [w'] has the faults of [w], every node of [w]
    unchanged (possibly more nodes), and the log of [w] followed by [evs]. *)
Record extends_by (evs : list Event) (w w' : World) : Prop := {
  ext_stat : statFault w' = statFault w;
  ext_mkdir : mkdirFault w' = mkdirFault w;
  ext_write : writeFault w' = writeFault w;
  ext_nodes : nodes w ⊆ nodes w';
  ext_log : log w' = log w ++ evs
}.

(** The error of the existence check, as the callers read it. *)
Definition stat_err (path : string) (w : World) : option error :=
  (OS.Stat path w).1.2.

(** The existence check of [path] does not answer "does not exist": it
    succeeds, or it fails with another error. *)
Definition settled (path : string) (w : World) : Prop :=
  match stat_err path w with
  | Some err => OS.IsNotExist err = false
  | None => True
  end.

(** ** What the save loops establish *)

(** Every [WriteFile] call in [evs] went to a path that held nothing in [w]
    and whose existence check is not faulty. *)
Definition fresh_write (w : World) (e : Event) : Prop :=
  match e with
  | EvWriteFile k _ => nodes w !! k = None /\ statFault w !! k = None
  | _ => True
  end.

(** Nothing was printed. *)
Definition silent (e : Event) : Prop :=
  match e with EvPrint _ => False | _ => True end.

(** The file has been dealt with: its directory is in place and its
    existence check no longer answers "does not exist". *)
Definition dealt_with (file : string) (w : World) : Prop :=
  nodes w !! Filepath.Clean (Filepath.Dir file) = Some Directory /\ settled file w.

(** Same, with an existence check that succeeds. *)
Definition present (file : string) (w : World) : Prop :=
  nodes w !! Filepath.Clean (Filepath.Dir file) = Some Directory /\
  stat_err file w = None.

(** The file name that [SaveAssignment] builds for a map key. *)
Definition target (root : string) (entry : string * string) : string :=
  root +:+ "/" +:+ entry.1.

(** The file name that [Item.Save] builds for a map key. *)
Definition item_file (it : Handlers.Item) (entry : string * string) : string :=
  Handlers.dir it +:+ "/" +:+ Api.ID (Handlers.Problem it) +:+ "/" +:+ entry.1.

(** ** What a save leaves behind *)

(** The bytes of the regular file at [path], if there is one. *)
Definition file_content (path : string) (w : World) : option string :=
  match nodes w !! Filepath.Clean path with
  | Some (File content) => Some content
  | _ => None
  end.

(** The classification of a saved item (the spec's [SaveResult]), read off
    the two flags the way [Matches] reads them. *)
Inductive SaveResult := New | Updated | Unchanged.

Definition classification (it : Handlers.Item) : SaveResult :=
  if Handlers.Matches it Handlers.HWNew then New
  else if Handlers.Matches it Handlers.HWUpdated then Updated
  else Unchanged.

(** An item with both flags at Go's zero value, as a composite literal that
    names only the problem and the directory leaves them. *)
Definition NewItem (problem : Api.Problem) (dir : string) : Handlers.Item :=
  {| Handlers.Problem := problem; Handlers.dir := dir;
     Handlers.isNew := false; Handlers.isUpdated := false |}.

(** The existence check of the item directory answers "does not exist". *)
Definition dir_missing (it : Handlers.Item) (w : World) : bool :=
  match stat_err (Handlers.Path it) w with
  | Some err => OS.IsNotExist err
  | None => false
  end.

(** The line [SaveAssignment] prints once the files are done. *)
Definition summary_line (a : Main.Assignment) : string :=
  Strings.Join [if Main.IsFresh a then "*" else " "; Main.Track a; "-"; Main.Slug a] " "
    +:+ newline.

(** The [root] of [SaveAssignment]. *)
Definition assignment_root (dir : string) (a : Main.Assignment) : string :=
  dir +:+ "/" +:+ Main.Track a +:+ "/" +:+ Main.Slug a.

(** ** Worked inputs *)

(** An exercise directory that holds a locally edited [bob.rb]. *)
Definition demo_world : World :=
  {| nodes := list_to_map [("/ex", Directory); ("/ex/ruby", Directory);
                           ("/ex/ruby/bob", Directory);
                           ("/ex/ruby/bob/bob.rb", File "local edit")];
     statFault := ∅; mkdirFault := ∅; writeFault := ∅; log := [] |}.

(** Nothing on disk, nothing failing. *)
Definition empty_world : World :=
  {| nodes := ∅; statFault := ∅; mkdirFault := ∅; writeFault := ∅; log := [] |}.

(** [demo_world] with a [bob.rb] whose existence check is refused. *)
Definition guarded_world : World :=
  {| nodes := nodes demo_world;
     statFault := {[ "/ex/ruby/bob/bob.rb" := FaultEACCES ]};
     mkdirFault := ∅; writeFault := ∅; log := [] |}.

Definition demo_assignment : Main.Assignment :=
  {| Main.Track := "ruby"; Main.Slug := "bob";
     Main.Files := [("bob.rb", "remote"); ("README.md", "readme")];
     Main.IsFresh := true |}.

Definition demo_assignment_reordered : Main.Assignment :=
  {| Main.Track := "ruby"; Main.Slug := "bob";
     Main.Files := [("README.md", "readme"); ("bob.rb", "remote")];
     Main.IsFresh := true |}.

Definition bob_only : Main.Assignment :=
  {| Main.Track := "ruby"; Main.Slug := "bob";
     Main.Files := [("bob.rb", "remote")]; Main.IsFresh := false |}.


Definition demo_problem : Api.Problem :=
  {| Api.ID := "ruby/bob"; Api.TrackID := "ruby"; Api.Language := "Ruby";
     Api.Slug := "bob"; Api.Name := "Bob"; Api.IsFresh := false;
     Api.Files := [("bob.rb", "remote"); ("README.md", "readme")] |}.

Definition demo_problem_reordered : Api.Problem :=
  {| Api.ID := "ruby/bob"; Api.TrackID := "ruby"; Api.Language := "Ruby";
     Api.Slug := "bob"; Api.Name := "Bob"; Api.IsFresh := false;
     Api.Files := [("README.md", "readme"); ("bob.rb", "remote")] |}.

Definition empty_problem : Api.Problem :=
  {| Api.ID := "ruby/bob"; Api.TrackID := "ruby"; Api.Language := "Ruby";
     Api.Slug := "bob"; Api.Name := "Bob"; Api.IsFresh := false; Api.Files := [] |}.

(** A reader for flat JSON objects whose values are plain strings, without
    escapes or white space; it stands in for [encoding/json] in the worked
    inputs only. *)
Module FlatJSON.

Definition quote : ascii := "034"%char.

Definition quoted (s : string) : string := String quote s +:+ String quote "".

(** The text up to the next quotation mark, and what follows the mark. *)
Fixpoint until_quote (s : string) : option (string * string) :=
  match s with
  | EmptyString => None
  | String c s' =>
      if bool_decide (c = quote) then Some ("", s')
      else match until_quote s' with
           | Some (text, rest) => Some (String c text, rest)
           | None => None
           end
  end.

Fixpoint members (fuel : nat) (s : string) : option (list (string * string)) :=
  match fuel, s with
  | S fuel', String q s1 =>
      if bool_decide (q = quote) then
        match until_quote s1 with
        | Some (key, String colon (String q2 s2)) =>
            if bool_decide (colon = ":"%char) && bool_decide (q2 = quote) then
              match until_quote s2 with
              | Some (value, "}") => Some [(key, value)]
              | Some (value, String comma rest) =>
                  if bool_decide (comma = ","%char) then
                    match members fuel' rest with
                    | Some more => Some ((key, value) :: more)
                    | None => None
                    end
                  else None
              | _ => None
              end
            else None
        | _ => None
        end
      else None
  | _, _ => None
  end.

Definition object (s : string) : option (list (string * string)) :=
  match s with
  | String open rest =>
      if bool_decide (open = "{"%char) then
        if bool_decide (rest = "}") then Some []
        else members (String.length rest) rest
      else None
  | EmptyString => None
  end.

Fixpoint field (key : string) (kvs : list (string * string)) : string :=
  match kvs with
  | [] => ""
  | (k, v) :: rest => if bool_decide (k = key) then v else field key rest
  end.

Definition syntax_error : error := errorString "unexpected end of JSON input".

Definition submitResponse (body : string) : Main.submitResponse + error :=
  match object body with
  | Some kvs =>
      inl {| Main.ID := field "id" kvs; Main.Status := field "status" kvs;
             Main.Language := field "language" kvs;
             Main.Exercise := field "exercise" kvs;
             Main.SubmissionPath := field "submission_path" kvs;
             Main.Error := field "error" kvs |}
  | None => inr syntax_error
  end.

Definition error_field (key body : string) : string + error :=
  match object body with
  | Some kvs => inl (field key kvs)
  | None => inr syntax_error
  end.

Definition submitRequest (r : Main.submitRequest) : string * option error :=
  ("{" +:+ quoted "key" +:+ ":" +:+ quoted (Main.Key r) +:+ ","
       +:+ quoted "code" +:+ ":" +:+ quoted (Main.Code r) +:+ ","
       +:+ quoted "path" +:+ ":" +:+ quoted (Main.Path r) +:+ "}", None).

End FlatJSON.

(** ** A worked environment *)

Definition demo_config : Config.Config :=
  {| Config.Hostname := "http://exercism.io"; Config.APIKey := "abc123";
     Config.Dir := "/ex" |}.

(** A Linux build in which the service answers every request with [reply]. *)
Definition demo_env (reply : Response + error) : Main.Env :=
  {| Main.GOOS := "linux"; Main.GOARCH := "amd64"; Main.Separator := "/"%char;
     Main.Getwd := ("/ex", None);
     Main.config_Read := fun _ => (demo_config, None);
     Main.IsAuthenticated := fun c => negb (bool_decide (Config.APIKey c = ""));
     Main.NewRequest_error := fun _ _ => None;
     Main.Do := fun _ => reply;
     Main.Marshal_submitRequest := FlatJSON.submitRequest;
     Main.Unmarshal_submitResponse := FlatJSON.submitResponse;
     Main.Unmarshal_apiError := FlatJSON.error_field "error";
     Main.Unmarshal_unsubmitError := FlatJSON.error_field "Error";
     Main.Unmarshal_assignments := fun _ => inl [] |}.

(** The body [{"id":"42","status":"ok"}] with status 201. *)
Definition reply_created : Response + error :=
  inl {| StatusCode := 201;
         ReadAll := ("{" +:+ FlatJSON.quoted "id" +:+ ":" +:+ FlatJSON.quoted "42" +:+ ","
                     +:+ FlatJSON.quoted "status" +:+ ":" +:+ FlatJSON.quoted "ok" +:+ "}",
                     None) |}.

(** The body [{"error":"bad file"}] with status 422. *)
Definition reply_unprocessable : Response + error :=
  inl {| StatusCode := 422;
         ReadAll := ("{" +:+ FlatJSON.quoted "error" +:+ ":"
                     +:+ FlatJSON.quoted "bad file" +:+ "}", None) |}.

(** The exercise directory with a solution and its test under [python/bob],
    a file [a/b/c.py], and a file outside of it. *)
Definition submit_world : World :=
  {| nodes := list_to_map [("/ex", Directory); ("/ex/python", Directory);
                           ("/ex/python/bob", Directory);
                           ("/ex/python/bob/bob.py", File "def hey(): pass");
                           ("/ex/python/bob/bob_test.py", File "import unittest");
                           ("/ex/a", Directory); ("/ex/a/b", Directory);
                           ("/ex/a/b/c.py", File "print(1)");
                           ("/ex/_test.py", File "import unittest");
                           ("/tmp", Directory); ("/tmp/scratch.py", File "x = 1")];
     statFault := ∅; mkdirFault := ∅; writeFault := ∅; log := [] |}.

Definition submit_ctx (filename : string) : Main.Context :=
  {| Main.Args := [filename]; Main.GlobalString_config := "" |}.


(** The request [SubmitAssignment] builds around the encoded submission. *)
Definition submit_request (env : Main.Env) (c : Config.Config) (json : string)
  : Request :=
  Header_Set "Content-Type" "application/json"
    (Header_Set "User-Agent" (Main.UserAgent env)
       {| Method := "POST"; URL := Config.Hostname c +:+ "/" +:+ "api/v1/user/assignments";
          Header := ∅; Body := Some json |}).

(** ** Vocabulary of the further properties *)

(** [traced evs w w']: [w'] extends [w] by [evs], and every node of [w'] is
    a node of [w] or is accounted for by an event of [evs]. *)
Record traced (evs : list Event) (w w' : World) : Prop := {
  tr_extends : extends_by evs w w';
  tr_nodes : forall k n, nodes w' !! k = Some n ->
    nodes w !! k = Some n \/
    (n = Directory /\ EvMkdir k ∈ evs) \/
    (exists data, n = File data /\ EvWriteFile k data ∈ evs)
}.

(** A [WriteFile] event writes an entry of the mapping, under the name
    [file_of] builds for it and with its text; nothing is printed or sent. *)
Definition from_mapping (file_of : string * string -> string)
    (files : list (string * string)) (e : Event) : Prop :=
  match e with
  | EvWriteFile k data =>
      exists entry, entry ∈ files /\ k = Filepath.Clean (file_of entry) /\ data = entry.2
  | EvMkdir _ => True
  | _ => False
  end.

(** A [WriteFile] call on a path without a write fault has left its data
    on disk in [w]. *)
Definition landed (w : World) (e : Event) : Prop :=
  match e with
  | EvWriteFile k data => writeFault w !! k = None -> nodes w !! k = Some (File data)
  | _ => True
  end.

(** The number of requests sent. *)
Definition request_count (evs : list Event) : nat :=
  length (List.filter is_request evs).

(** [demo_world] on which [README.md] cannot be written. *)
Definition readonly_world : World :=
  {| nodes := nodes demo_world; statFault := ∅; mkdirFault := ∅;
     writeFault := {[ "/ex/ruby/bob/README.md" := FaultEACCES ]}; log := [] |}.

(** [demo_world] on which the item directory cannot be examined. *)
Definition locked_world : World :=
  {| nodes := nodes demo_world;
     statFault := {[ "/ex/ruby/bob" := FaultEACCES ]};
     mkdirFault := ∅; writeFault := ∅; log := [] |}.

(** Status 204 with an empty body. *)
Definition reply_no_content : Response + error :=
  inl {| StatusCode := 204; ReadAll := ("", None) |}.

(** Status 404 with the body [{"Error":"not found"}]. *)
Definition reply_not_found : Response + error :=
  inl {| StatusCode := 404;
         ReadAll := ("{" +:+ FlatJSON.quoted "Error" +:+ ":"
                     +:+ FlatJSON.quoted "not found" +:+ "}", None) |}.

(** Status 200 with an empty JSON object. *)
Definition reply_ok : Response + error :=
  inl {| StatusCode := 200; ReadAll := ("{}", None) |}.

(** Status 401 with the body [{"error":"unknown key"}]. *)
Definition reply_unauthorized : Response + error :=
  inl {| StatusCode := 401;
         ReadAll := ("{" +:+ FlatJSON.quoted "error" +:+ ":"
                     +:+ FlatJSON.quoted "unknown key" +:+ "}", None) |}.

(** A connection that cannot be made. *)
Definition reply_refused : Response + error :=
  inr (errorString "dial tcp: connection refused").

(** [demo_env] with a decoder that finds [demo_assignment] in every body. *)
Definition fetch_env (reply : Response + error) : Main.Env :=
  {| Main.GOOS := "linux"; Main.GOARCH := "amd64"; Main.Separator := "/"%char;
     Main.Getwd := ("/ex", None);
     Main.config_Read := fun _ => (demo_config, None);
     Main.IsAuthenticated := fun c => negb (bool_decide (Config.APIKey c = ""));
     Main.NewRequest_error := fun _ _ => None;
     Main.Do := fun _ => reply;
     Main.Marshal_submitRequest := FlatJSON.submitRequest;
     Main.Unmarshal_submitResponse := FlatJSON.submitResponse;
     Main.Unmarshal_apiError := FlatJSON.error_field "error";
     Main.Unmarshal_unsubmitError := FlatJSON.error_field "Error";
     Main.Unmarshal_assignments := fun _ => inl [demo_assignment] |}.

(** [demo_env] for a user who has not configured an API key. *)
Definition anonymous_env (reply : Response + error) : Main.Env :=
  {| Main.GOOS := "linux"; Main.GOARCH := "amd64"; Main.Separator := "/"%char;
     Main.Getwd := ("/ex", None);
     Main.config_Read := fun _ =>
       ({| Config.Hostname := "http://exercism.io"; Config.APIKey := "";
           Config.Dir := "/ex" |}, None);
     Main.IsAuthenticated := fun c => negb (bool_decide (Config.APIKey c = ""));
     Main.NewRequest_error := fun _ _ => None;
     Main.Do := fun _ => reply;
     Main.Marshal_submitRequest := FlatJSON.submitRequest;
     Main.Unmarshal_submitResponse := FlatJSON.submitResponse;
     Main.Unmarshal_apiError := FlatJSON.error_field "error";
     Main.Unmarshal_unsubmitError := FlatJSON.error_field "Error";
     Main.Unmarshal_assignments := fun _ => inl [] |}.

(** * Properties *)

(** ** The file-system calls *)

Lemma extends_by_refl w : extends_by [] w w.
Proof. split; try done. by rewrite app_nil_r. Qed.

Lemma extends_by_trans e1 e2 w1 w2 w3 :
  extends_by e1 w1 w2 -> extends_by e2 w2 w3 -> extends_by (e1 ++ e2) w1 w3.
Proof.
  intros [] []. split; try congruence.
  - by etrans.
  - rewrite app_assoc. congruence.
Qed.

Lemma extends_by_events evs w w' :
  extends_by evs w w' -> events_since w w' = evs.
Proof.
  intros []. unfold events_since. rewrite ext_log0. by rewrite drop_app_length.
Qed.

Lemma extends_by_node evs w w' k n :
  extends_by evs w w' -> nodes w !! k = Some n -> nodes w' !! k = Some n.
Proof. intros [] Hk. by eapply lookup_weaken. Qed.

Lemma Stat_world path w : (OS.Stat path w).2 = w.
Proof. unfold OS.Stat. by repeat case_match. Qed.

Lemma Stat_eq path w : exists n, OS.Stat path w = ((n, stat_err path w), w).
Proof.
  unfold stat_err, OS.Stat. repeat case_match; simpl; eauto.
Qed.

Lemma stat_err_None path w :
  stat_err path w = None <->
  statFault w !! Filepath.Clean path = None /\ is_Some (nodes w !! Filepath.Clean path).
Proof.
  unfold stat_err, OS.Stat. repeat case_match; simpl; split; try done;
    intros; try (split; [done | eauto]); destruct_and?;
    try match goal with H : is_Some None |- _ => by destruct H end; congruence.
Qed.

Lemma stat_err_NotExist path w err :
  stat_err path w = Some err -> OS.IsNotExist err = true ->
  nodes w !! Filepath.Clean path = None /\ statFault w !! Filepath.Clean path = None.
Proof.
  unfold stat_err, OS.Stat. repeat case_match; simpl; intros [= <-]; try done.
  by destruct f.
Qed.

Lemma stat_err_fault path w f :
  statFault w !! Filepath.Clean path = Some f ->
  stat_err path w = Some (PathError "stat" path (fault_errno f)) /\
  OS.IsNotExist (PathError "stat" path (fault_errno f)) = false.
Proof.
  unfold stat_err, OS.Stat. intros ->. split; [done | by destruct f].
Qed.

Lemma stat_err_None_mono evs w w' path :
  extends_by evs w w' -> stat_err path w = None -> stat_err path w' = None.
Proof.
  intros Hext [Hf [n Hn]]%stat_err_None. apply stat_err_None.
  destruct Hext. split; [congruence |]. exists n. by eapply lookup_weaken.
Qed.

Lemma settled_mono evs w w' path :
  extends_by evs w w' -> settled path w -> settled path w'.
Proof.
  intros Hext. unfold settled.
  destruct (stat_err path w) as [err|] eqn:Hw.
  - intros Hne. destruct (statFault w !! Filepath.Clean path) as [f|] eqn:Hf.
    + assert (statFault w' !! Filepath.Clean path = Some f) as Hf'
        by (destruct Hext; congruence).
      apply stat_err_fault in Hf' as [-> ?]. done.
    + exfalso. revert Hw Hne. unfold stat_err, OS.Stat. rewrite Hf.
      case_match; simpl; [done | by intros [= <-]].
  - intros _. by erewrite stat_err_None_mono.
Qed.

Lemma emit_extends e w : extends_by [e] w (emit e w).2.
Proof. by split. Qed.

Lemma Mkdir_spec path w :
  exists evs, extends_by evs w (OS.Mkdir path w).2 /\
    Forall (fun e => is_mkdir e = true) evs /\
    ((OS.Mkdir path w).1 = None ->
       nodes (OS.Mkdir path w).2 !! Filepath.Clean path = Some Directory) /\
    ((OS.Mkdir path w).1 <> None -> (OS.Mkdir path w).2 = w).
Proof.
  unfold OS.Mkdir.
  destruct (mkdirFault w !! _) eqn:Hf; [| destruct (nodes w !! _) eqn:Hn];
    simpl.
  - exists []. split; [apply extends_by_refl | done].
  - exists []. split; [apply extends_by_refl | done].
  - exists [EvMkdir (Filepath.Clean path)]. split; [| split; [| split]].
    + split; try done. simpl. by apply insert_subseteq.
    + by repeat constructor.
    + intros _. apply lookup_insert_eq.
    + done.
Qed.

Lemma mkdirAll_chain_spec chain w :
  exists evs, extends_by evs w (OS.mkdirAll_chain chain w).2 /\
    Forall (fun e => is_mkdir e = true) evs /\
    ((OS.mkdirAll_chain chain w).1 = None -> forall path rest,
       chain = path :: rest ->
       nodes (OS.mkdirAll_chain chain w).2 !! Filepath.Clean path = Some Directory).
Proof.
  revert w. induction chain as [|path ancestors IH]; intros w; simpl.
  - exists []. split; [apply extends_by_refl | done].
  - destruct (nodes w !! Filepath.Clean path) as [[c|]|] eqn:Hn; simpl.
    + exists []. split; [apply extends_by_refl | done].
    + exists []. split; [apply extends_by_refl |]. split; [done |].
      intros _ ? ? [= <- <-]. done.
    + unfold bind. destruct (IH w) as (e1 & He1 & Hw1 & _).
      destruct (OS.mkdirAll_chain ancestors w) as [[err|] w1]; simpl in *.
      * exists e1. done.
      * destruct (Mkdir_spec path w1) as (e2 & He2 & Hw2 & Hok & _).
        exists (e1 ++ e2). split; [by eapply extends_by_trans |].
        split; [by apply Forall_app |].
        intros Hnone ? ? [= <- <-]. by apply Hok.
Qed.

(** ** String append *)

Lemma str_app_cons c s t : String c s +:+ t = String c (s +:+ t).
Proof. reflexivity. Qed.

Lemma str_app_nil_l s : "" +:+ s = s.
Proof. reflexivity. Qed.

Lemma str_app_nil_r s : s +:+ "" = s.
Proof. induction s; [done |]. rewrite str_app_cons. by f_equal. Qed.

Lemma str_app_assoc s t u : (s +:+ t) +:+ u = s +:+ (t +:+ u).
Proof. induction s; [done |]. rewrite !str_app_cons. by f_equal. Qed.

(** ** Directory creation and file writes *)

Lemma cuts_last acc s : last (OS.cuts acc s) = Some (acc +:+ s).
Proof.
  revert acc. induction s as [|c s IH]; intros acc; simpl.
  - by rewrite str_app_nil_r.
  - assert (last (OS.cuts (acc +:+ String c "") s) = Some (acc +:+ String c s)) as Hl.
    { rewrite IH. by rewrite str_app_assoc. }
    case_match; [| done].
    destruct (OS.cuts (acc +:+ String c "") s); [done | by rewrite last_cons, Hl].
Qed.

Lemma cuts_rev_head path :
  exists rest, rev (OS.cuts "" path) = path :: rest.
Proof.
  pose proof (cuts_last "" path) as Hl. rewrite str_app_nil_l in Hl.
  destruct (OS.cuts "" path) as [|x l] using rev_ind; [done |].
  rewrite last_snoc in Hl. injection Hl as ->.
  rewrite rev_app_distr. simpl. eauto.
Qed.

Lemma MkdirAll_spec path w :
  exists evs, extends_by evs w (OS.MkdirAll path w).2 /\
    Forall (fun e => is_mkdir e = true) evs /\
    ((OS.MkdirAll path w).1 = None ->
       nodes (OS.MkdirAll path w).2 !! Filepath.Clean path = Some Directory).
Proof.
  unfold OS.MkdirAll.
  destruct (mkdirAll_chain_spec (rev (OS.cuts "" path)) w) as (evs & He & Hw & Hok).
  exists evs. split; [done |]. split; [done |]. intros Hnone.
  destruct (cuts_rev_head path) as [rest Hrev]. by eapply Hok.
Qed.

(** A directory that is in place makes [MkdirAll] return at once. *)
Lemma MkdirAll_present path w :
  nodes w !! Filepath.Clean path = Some Directory ->
  OS.MkdirAll path w = (None, w).
Proof.
  intros Hn. unfold OS.MkdirAll.
  destruct (cuts_rev_head path) as [rest ->]. simpl. by rewrite Hn.
Qed.

Lemma WriteFile_spec path data w :
  nodes w !! Filepath.Clean path = None ->
  extends_by [EvWriteFile (Filepath.Clean path) data] w (OS.WriteFile path data w).2 /\
  ((OS.WriteFile path data w).1 = None ->
     nodes (OS.WriteFile path data w).2 !! Filepath.Clean path = Some (File data)).
Proof.
  intros Hn. unfold OS.WriteFile, bind, emit, put_node, ret. simpl.
  destruct (writeFault w !! _) eqn:Hf; simpl.
  - split; [by split | done].
  - rewrite Hn. simpl. split.
    + split; try done. simpl. by apply insert_subseteq.
    + intros _. apply lookup_insert_eq.
Qed.

(** ** The two save loops *)

Lemma fresh_write_back evs w w' e :
  extends_by evs w w' -> fresh_write w' e -> fresh_write w e.
Proof.
  intros [] He. destruct e as [|k d| |]; try done. destruct He as [Hn Hf].
  split; [| congruence].
  destruct (nodes w !! k) as [n|] eqn:Hk; [| done].
  eapply lookup_weaken in Hk; [| done]. congruence.
Qed.

Lemma fresh_write_of_mkdirs w evs :
  Forall (fun e => is_mkdir e = true) evs -> Forall (fresh_write w) evs.
Proof. intros H. eapply Forall_impl; [exact H |]. by intros []. Qed.

Lemma silent_of_mkdirs evs :
  Forall (fun e => is_mkdir e = true) evs -> Forall silent evs.
Proof. intros H. eapply Forall_impl; [exact H |]. by intros []. Qed.

Lemma dealt_with_mono evs w w' file :
  extends_by evs w w' -> dealt_with file w -> dealt_with file w'.
Proof.
  intros Hext [Hd Hs]. split; [by eapply extends_by_node | by eapply settled_mono].
Qed.

Lemma present_mono evs w w' file :
  extends_by evs w w' -> present file w -> present file w'.
Proof.
  intros Hext [Hd Hs].
  split; [by eapply extends_by_node | by eapply stat_err_None_mono].
Qed.

Lemma WriteFile_settled evs w w' path :
  extends_by evs w w' ->
  nodes w' !! Filepath.Clean path <> None ->
  statFault w !! Filepath.Clean path = None ->
  stat_err path w' = None.
Proof.
  intros [] Hn Hf. apply stat_err_None. split; [congruence |].
  by destruct (nodes w' !! _).
Qed.

Lemma SaveAssignment_loop_spec root files w err w' :
  Main.SaveAssignment_loop root files w = (err, w') ->
  exists evs, extends_by evs w w' /\
    Forall (fresh_write w) evs /\
    Forall silent evs /\
    (err = None -> Forall (fun entry => dealt_with (target root entry) w') files).
Proof.
  revert w err w'. induction files as [|[name text] rest IH]; intros w; simpl.
  - intros err w' [= <- <-]. exists []. split; [apply extends_by_refl | done].
  - intros err w'. unfold bind.
    destruct (MkdirAll_spec (Filepath.Dir (root +:+ "/" +:+ name)) w)
      as (e1 & He1 & Hm1 & Hdir).
    destruct (OS.MkdirAll _ w) as [[e|] w1]; simpl in *.
    { intros [= <- <-]. exists e1. split; [done |].
      split; [by apply fresh_write_of_mkdirs |].
      split; [by apply silent_of_mkdirs | done]. }
    specialize (Hdir eq_refl).
    destruct (Stat_eq (root +:+ "/" +:+ name) w1) as [n ->].
    pose proof (silent_of_mkdirs _ Hm1) as Hp1.
    destruct (stat_err (root +:+ "/" +:+ name) w1) as [serr|] eqn:Hst.
    + destruct (OS.IsNotExist serr) eqn:Hne.
      * destruct (stat_err_NotExist _ _ _ Hst Hne) as [Hnone Hnf].
        destruct (WriteFile_spec (root +:+ "/" +:+ name) text w1 Hnone)
          as [He2 Hfile].
        destruct (OS.WriteFile _ text w1) as [[e|] w2]; simpl in *.
        { intros [= <- <-]. eexists. split; [by eapply extends_by_trans |].
          split; [| split; [| done]].
          - apply Forall_app. split; [by apply fresh_write_of_mkdirs |].
            constructor; [| done]. eapply fresh_write_back; [exact He1 |]. done.
          - apply Forall_app. split; [done | by repeat constructor]. }
        intros Hrest. destruct (IH _ _ _ Hrest) as (e3 & He3 & Hf3 & Hp3 & Hall).
        exists ((e1 ++ [EvWriteFile (Filepath.Clean (root +:+ "/" +:+ name)) text]) ++ e3).
        split; [eapply extends_by_trans; [by eapply extends_by_trans | done] |].
        split; [| split].
        -- apply Forall_app. split.
           ++ apply Forall_app. split; [by apply fresh_write_of_mkdirs |].
              constructor; [| done]. eapply fresh_write_back; [exact He1 |]. done.
           ++ eapply Forall_impl; [exact Hf3 |]. intros e.
              eapply fresh_write_back. by eapply extends_by_trans.
        -- apply Forall_app. split; [| done].
           apply Forall_app. split; [done | by repeat constructor].
        -- intros ->. constructor; [| by apply Hall].
           eapply dealt_with_mono; [exact He3 |].
           split; [by eapply extends_by_node |]. unfold settled, target. simpl.
           erewrite WriteFile_settled; [done | apply extends_by_refl | |].
           ++ by rewrite Hfile.
           ++ destruct He2. congruence.
      * intros Hrest. destruct (IH _ _ _ Hrest) as (e3 & He3 & Hf3 & Hp3 & Hall).
        exists (e1 ++ e3). split; [by eapply extends_by_trans |].
        split; [| split].
        -- apply Forall_app. split; [by apply fresh_write_of_mkdirs |].
           eapply Forall_impl; [exact Hf3 |]. intros e. by eapply fresh_write_back.
        -- by apply Forall_app.
        -- intros ->. constructor; [| by apply Hall].
           eapply dealt_with_mono; [exact He3 |]. split; [done |].
           unfold settled, target. simpl. by rewrite Hst.
    + intros Hrest. destruct (IH _ _ _ Hrest) as (e3 & He3 & Hf3 & Hp3 & Hall).
      exists (e1 ++ e3). split; [by eapply extends_by_trans |].
      split; [| split].
      * apply Forall_app. split; [by apply fresh_write_of_mkdirs |].
        eapply Forall_impl; [exact Hf3 |]. intros e. by eapply fresh_write_back.
      * by apply Forall_app.
      * intros ->. constructor; [| by apply Hall].
        eapply dealt_with_mono; [exact He3 |]. split; [done |].
        unfold settled, target. simpl. by rewrite Hst.
Qed.

(** A loop over files that have all been dealt with changes nothing. *)
Lemma SaveAssignment_loop_idle root files w :
  Forall (fun entry => dealt_with (target root entry) w) files ->
  Main.SaveAssignment_loop root files w = (None, w).
Proof.
  induction 1 as [|[name text] rest [Hd Hs] _ IH]; simpl; [done |].
  unfold bind, target in *. simpl in *.
  rewrite (MkdirAll_present _ _ Hd).
  destruct (Stat_eq (root +:+ "/" +:+ name) w) as [n ->].
  unfold settled in Hs. destruct (stat_err _ w); [| done]. by rewrite Hs.
Qed.

Lemma existsb_write_mkdirs evs :
  Forall (fun e => is_mkdir e = true) evs -> existsb is_write evs = false.
Proof.
  induction 1 as [|e evs He _ IH]; simpl; [done |]. rewrite IH. by destruct e.
Qed.

Lemma Save_loop_spec it files w it' err w' :
  Handlers.Save_loop it files w = ((it', err), w') ->
  exists evs, extends_by evs w w' /\
    Forall (fresh_write w) evs /\
    Forall silent evs /\
    Handlers.Problem it' = Handlers.Problem it /\
    Handlers.dir it' = Handlers.dir it /\
    Handlers.isNew it' = Handlers.isNew it /\
    Handlers.isUpdated it' =
      Handlers.isUpdated it || (negb (Handlers.isNew it) && existsb is_write evs) /\
    (err = None -> Forall (fun entry => present (item_file it entry) w') files).
Proof.
  revert it w it' err w'. induction files as [|[name text] rest IH]; simpl.
  - intros it w it' err w' [= <- <- <-]. exists [].
    split; [apply extends_by_refl |]. repeat split; try done.
    by rewrite andb_false_r, orb_false_r.
  - intros it w it' err w'. unfold bind.
    set (file := Handlers.dir it +:+ "/" +:+ Api.ID (Handlers.Problem it) +:+ "/" +:+ name).
    destruct (MkdirAll_spec (Filepath.Dir file) w) as (e1 & He1 & Hm1 & Hdir).
    pose proof (existsb_write_mkdirs _ Hm1) as Hx1.
    destruct (OS.MkdirAll _ w) as [[e|] w1]; simpl in *.
    { intros [= <- <- <-]. exists e1. split; [done |].
      split; [by apply fresh_write_of_mkdirs |].
      split; [by apply silent_of_mkdirs |]. repeat split; try done.
      by rewrite Hx1, andb_false_r, orb_false_r. }
    specialize (Hdir eq_refl).
    destruct (Stat_eq file w1) as [n ->].
    destruct (stat_err file w1) as [serr|] eqn:Hst.
    + destruct (OS.IsNotExist serr) eqn:Hne; simpl.
      2:{ intros [= <- <- <-]. exists e1. split; [done |].
          split; [by apply fresh_write_of_mkdirs |].
          split; [by apply silent_of_mkdirs |]. repeat split; try done.
          by rewrite Hx1, andb_false_r, orb_false_r. }
      destruct (stat_err_NotExist _ _ _ Hst Hne) as [Hnone Hnf].
      destruct (WriteFile_spec file text w1 Hnone) as [He2 Hfile].
      set (it1 := if negb (Handlers.isNew it) then Handlers.set_isUpdated it else it).
      assert (Handlers.Problem it1 = Handlers.Problem it /\
              Handlers.dir it1 = Handlers.dir it /\
              Handlers.isNew it1 = Handlers.isNew it /\
              Handlers.isUpdated it1 =
                Handlers.isUpdated it || negb (Handlers.isNew it))
        as (Hp & Hd & Hn & Hu).
      { subst it1. destruct (Handlers.isNew it) eqn:E; simpl;
          rewrite ?orb_true_r, ?orb_false_r; done. }
      assert (Forall (fresh_write w)
                (e1 ++ [EvWriteFile (Filepath.Clean file) text])) as Hf12.
      { apply Forall_app. split; [by apply fresh_write_of_mkdirs |].
        constructor; [| done]. eapply fresh_write_back; [exact He1 |]. done. }
      assert (Forall silent (e1 ++ [EvWriteFile (Filepath.Clean file) text])) as Hs12.
      { apply Forall_app. split; [by apply silent_of_mkdirs | by repeat constructor]. }
      destruct (OS.WriteFile _ text w1) as [[e|] w2]; simpl in *.
      { intros [= <- <- <-]. eexists. split; [by eapply extends_by_trans |].
        split; [done |]. split; [done |]. repeat split; try done.
        rewrite Hu, existsb_app, Hx1. simpl. by rewrite andb_true_r. }
      intros Hrest. destruct (IH _ _ _ _ _ Hrest)
        as (e3 & He3 & Hf3 & Hp3 & HP & HD & HN & HU & Hall).
      exists ((e1 ++ [EvWriteFile (Filepath.Clean file) text]) ++ e3).
      split; [eapply extends_by_trans; [by eapply extends_by_trans | done] |].
      split; [| split].
      * apply Forall_app. split; [done |].
        eapply Forall_impl; [exact Hf3 |]. intros e.
        eapply fresh_write_back. by eapply extends_by_trans.
      * by apply Forall_app.
      * repeat split; try congruence.
        -- rewrite HU, Hu, Hn, !existsb_app, Hx1. simpl.
           destruct (Handlers.isUpdated it), (Handlers.isNew it); done.
        -- intros ->. constructor.
           ++ eapply present_mono; [exact He3 |].
              split; [by eapply extends_by_node |].
              change (item_file it (name, text)) with file.
              eapply WriteFile_settled; [apply extends_by_refl | |].
              ** by rewrite Hfile.
              ** destruct He2. congruence.
           ++ eapply Forall_impl; [by apply Hall |].
              intros entry. unfold item_file. by rewrite Hp, Hd.
    + intros Hrest. destruct (IH _ _ _ _ _ Hrest)
        as (e3 & He3 & Hf3 & Hp3 & HP & HD & HN & HU & Hall).
      exists (e1 ++ e3). split; [by eapply extends_by_trans |].
      split; [| split].
      * apply Forall_app. split; [by apply fresh_write_of_mkdirs |].
        eapply Forall_impl; [exact Hf3 |]. intros e. by eapply fresh_write_back.
      * apply Forall_app. split; [by apply silent_of_mkdirs | done].
      * repeat split; try done.
        -- by rewrite HU, existsb_app, Hx1.
        -- intros ->. constructor; [| by apply Hall].
           eapply present_mono; [exact He3 |]. by split.
Qed.

(** A loop over files that are all present changes neither item nor world. *)
Lemma Save_loop_idle it files w :
  Forall (fun entry => present (item_file it entry) w) files ->
  Handlers.Save_loop it files w = ((it, None), w).
Proof.
  induction 1 as [|[name text] rest [Hd Hs] _ IH]; simpl; [done |].
  unfold bind, item_file in *. simpl in *.
  rewrite (MkdirAll_present _ _ Hd).
  destruct (Stat_eq (Handlers.dir it +:+ "/" +:+ Api.ID (Handlers.Problem it)
                     +:+ "/" +:+ name) w) as [n ->].
  by rewrite Hs.
Qed.

Lemma file_content_mono evs w w' path c :
  extends_by evs w w' -> file_content path w = Some c -> file_content path w' = Some c.
Proof.
  intros Hext. unfold file_content.
  destruct (nodes w !! Filepath.Clean path) as [[c'|]|] eqn:Hn; try done.
  intros [= <-]. by rewrite (extends_by_node _ _ _ _ _ Hext Hn).
Qed.

Lemma SaveAssignment_spec dir a w err w' :
  Main.SaveAssignment dir a w = (err, w') ->
  exists evs, extends_by evs w w' /\
    Forall (fresh_write w) evs /\
    (err = None ->
       Forall (fun entry => dealt_with (target (assignment_root dir a) entry) w')
         (Main.Files a)).
Proof.
  unfold Main.SaveAssignment, bind. fold (assignment_root dir a).
  destruct (Main.SaveAssignment_loop _ _ w) as [lerr w1] eqn:Hloop.
  destruct (SaveAssignment_loop_spec _ _ _ _ _ Hloop) as (evs & He & Hf & _ & Hall).
  destruct lerr as [e|]; simpl.
  - intros [= <- <-]. exists evs. done.
  - intros [= <- <-]. eexists. split; [| split].
    + eapply extends_by_trans; [exact He | apply emit_extends].
    + apply Forall_app. split; [done | by repeat constructor].
    + intros _. eapply Forall_impl; [by apply Hall |].
      intros entry. eapply dealt_with_mono. apply emit_extends.
Qed.

Lemma Save_spec it w it' err w' :
  Handlers.Save it w = ((it', err), w') ->
  exists evs, extends_by evs w w' /\
    Forall (fresh_write w) evs /\
    Forall silent evs /\
    Handlers.Problem it' = Handlers.Problem it /\
    Handlers.dir it' = Handlers.dir it /\
    Handlers.isNew it' = Handlers.isNew it || dir_missing it w /\
    Handlers.isUpdated it' =
      Handlers.isUpdated it || (negb (Handlers.isNew it') && existsb is_write evs) /\
    (err = None ->
       statFault w !! Filepath.Clean (Handlers.Path it) = None /\
       Forall (fun entry => present (item_file it entry) w') (Api.Files (Handlers.Problem it))).
Proof.
  unfold Handlers.Save, bind, dir_missing.
  destruct (Stat_eq (Handlers.Path it) w) as [n ->].
  destruct (stat_err (Handlers.Path it) w) as [serr|] eqn:Hst.
  - destruct (OS.IsNotExist serr) eqn:Hne; simpl.
    + intros Hloop.
      destruct (Save_loop_spec _ _ _ _ _ _ Hloop)
        as (evs & He & Hf & Hs & HP & HD & HN & HU & Hall).
      exists evs. simpl in *. do 5 (split; [done |]).
      split; [by rewrite HN, orb_true_r |].
      split; [by rewrite HU, HN |]. intros ->.
      split; [by destruct (stat_err_NotExist _ _ _ Hst Hne) | by apply Hall].
    + intros [= <- <- <-]. exists []. split; [apply extends_by_refl |].
      do 4 (split; [done |]).
      split; [by rewrite orb_false_r |].
      split; [by rewrite andb_false_r, orb_false_r | done].
  - intros Hloop.
    destruct (Save_loop_spec _ _ _ _ _ _ Hloop)
      as (evs & He & Hf & Hs & HP & HD & HN & HU & Hall).
    exists evs. do 5 (split; [done |]).
    split; [by rewrite HN, orb_false_r |].
    split; [by rewrite HU, HN |]. intros ->.
    split; [by apply stat_err_None in Hst as [? _] | by apply Hall].
Qed.

(** ** The claims about saving *)

(** C1. No overwrite: a regular file that is on disk before the save, at
    any path and with any content [c], still holds [c] after
    [SaveAssignment] and after [Item.Save], whatever the incoming files are
    and whether or not the save returns an error. *)
Theorem save_never_overwrites (dir : string) (a : Main.Assignment)
    (it : Handlers.Item) (w : World) (path c : string) :
  file_content path w = Some c ->
  file_content path (Main.SaveAssignment dir a w).2 = Some c /\
  file_content path (Handlers.Save it w).2 = Some c.
Proof.
  intros Hc. split.
  - destruct (Main.SaveAssignment dir a w) as [err w'] eqn:Hs.
    destruct (SaveAssignment_spec _ _ _ _ _ Hs) as (evs & He & _).
    by eapply file_content_mono.
  - destruct (Handlers.Save it w) as [[it' err] w'] eqn:Hs.
    destruct (Save_spec _ _ _ _ _ Hs) as (evs & He & _).
    by eapply file_content_mono.
Qed.

Lemma save_never_overwrites_witness :
  file_content "/ex/ruby/bob/bob.rb" demo_world = Some "local edit" /\
  file_content "/ex/ruby/bob/bob.rb"
    (Main.SaveAssignment "/ex" demo_assignment demo_world).2 = Some "local edit" /\
  file_content "/ex/ruby/bob/bob.rb"
    (Handlers.Save (NewItem demo_problem "/ex") demo_world).2 = Some "local edit".
Proof.
  split; [vm_compute; reflexivity |].
  apply (save_never_overwrites "/ex" demo_assignment (NewItem demo_problem "/ex")
           demo_world "/ex/ruby/bob/bob.rb" "local edit").
  vm_compute; reflexivity.
Defined.



Lemma events_since_refl w : events_since w w = [].
Proof. unfold events_since. by rewrite drop_all. Qed.

Lemma SaveAssignment_idle dir a w :
  Forall (fun entry => dealt_with (target (assignment_root dir a) entry) w)
    (Main.Files a) ->
  (Main.SaveAssignment dir a w).1 = None /\
  nodes (Main.SaveAssignment dir a w).2 = nodes w /\
  events_since w (Main.SaveAssignment dir a w).2 = [EvPrint (summary_line a)].
Proof.
  intros Hall. unfold Main.SaveAssignment, bind. fold (assignment_root dir a).
  rewrite (SaveAssignment_loop_idle _ _ _ Hall). simpl.
  split; [done |]. split; [done |].
  unfold events_since. simpl. by rewrite drop_app_length.
Qed.

(** C9. A failing existence check is passed over in [SaveAssignment]: when
    [os.Stat] of a file fails with an error other than not-exist, the loop
    goes on to the next file as if the file were there (first conjunct); no
    [WriteFile] call is ever made on such a path (second); nothing but the
    summary line is printed (third); and an assignment whose files all have
    their directory in place and either a failing existence check or a
    successful one is saved with a nil error, no write and no change to the
    tree (fourth). *)
Theorem SaveAssignment_skips_failed_check (dir : string) (a : Main.Assignment)
    (w : World) :
  (forall root name text rest w0 f,
     statFault w0 !! Filepath.Clean (root +:+ "/" +:+ name) = Some f ->
     Main.SaveAssignment_loop root ((name, text) :: rest) w0 =
       match OS.MkdirAll (Filepath.Dir (root +:+ "/" +:+ name)) w0 with
       | (Some err, w1) =>
           (Some (errorString ("Error making directory "
                               +:+ Filepath.Dir (root +:+ "/" +:+ name) +:+ ": ["
                               +:+ error_Error err +:+ "]")), w1)
       | (None, w1) => Main.SaveAssignment_loop root rest w1
       end) /\
  (forall k f data,
     statFault w !! k = Some f ->
     EvWriteFile k data ∉ events_since w (Main.SaveAssignment dir a w).2) /\
  (forall text,
     EvPrint text ∈ events_since w (Main.SaveAssignment dir a w).2 ->
     text = summary_line a) /\
  (Forall (fun entry =>
             nodes w !! Filepath.Clean
               (Filepath.Dir (target (assignment_root dir a) entry)) = Some Directory /\
             (is_Some (statFault w !! Filepath.Clean (target (assignment_root dir a) entry))
              \/ stat_err (target (assignment_root dir a) entry) w = None))
     (Main.Files a) ->
   (Main.SaveAssignment dir a w).1 = None /\
   nodes (Main.SaveAssignment dir a w).2 = nodes w /\
   events_since w (Main.SaveAssignment dir a w).2 = [EvPrint (summary_line a)]).
Proof.
  split; [| split; [| split]].
  - intros root name text rest w0 f Hf. simpl. unfold bind.
    destruct (MkdirAll_spec (Filepath.Dir (root +:+ "/" +:+ name)) w0)
      as (e1 & He1 & _).
    destruct (OS.MkdirAll _ w0) as [[e|] w1]; simpl in *; [done |].
    destruct (Stat_eq (root +:+ "/" +:+ name) w1) as [n ->].
    assert (statFault w1 !! Filepath.Clean (root +:+ "/" +:+ name) = Some f) as Hf1
      by (destruct He1; congruence).
    apply stat_err_fault in Hf1 as [-> ->]. done.
  - intros k f data Hf Hin.
    destruct (Main.SaveAssignment dir a w) as [err w'] eqn:Hs.
    destruct (SaveAssignment_spec _ _ _ _ _ Hs) as (evs & He & Hfresh & _).
    simpl in Hin. rewrite (extends_by_events _ _ _ He) in Hin.
    rewrite Forall_forall in Hfresh. apply Hfresh in Hin as [_ Hnone].
    congruence.
  - intros text. unfold Main.SaveAssignment, bind.
    fold (assignment_root dir a).
    destruct (Main.SaveAssignment_loop _ _ w) as [lerr w1] eqn:Hloop.
    destruct (SaveAssignment_loop_spec _ _ _ _ _ Hloop) as (evs & He & _ & Hs & _).
    rewrite Forall_forall in Hs.
    destruct lerr as [e|]; simpl.
    + rewrite (extends_by_events _ _ _ He). intros Hin. by apply Hs in Hin.
    + erewrite extends_by_events;
        [| eapply extends_by_trans; [exact He | apply emit_extends]].
      intros [Hin | Hin]%elem_of_app; [by apply Hs in Hin |].
      apply list_elem_of_singleton in Hin. by injection Hin as ->.
  - intros Hall. apply SaveAssignment_idle.
    eapply Forall_impl; [exact Hall |]. intros entry [Hd [[f Hf] | Hok]].
    + split; [done |]. unfold settled.
      by apply stat_err_fault in Hf as [-> ->].
    + split; [done |]. unfold settled. by rewrite Hok.
Qed.

Lemma SaveAssignment_skips_failed_check_witness :
  statFault guarded_world !! "/ex/ruby/bob/bob.rb" = Some FaultEACCES /\
  (Main.SaveAssignment "/ex" bob_only guarded_world).1 = None /\
  nodes (Main.SaveAssignment "/ex" bob_only guarded_world).2 = nodes guarded_world /\
  events_since guarded_world (Main.SaveAssignment "/ex" bob_only guarded_world).2 =
    [EvPrint (summary_line bob_only)].
Proof.
  split; [vm_compute; reflexivity |].
  apply (SaveAssignment_skips_failed_check "/ex" bob_only guarded_world).
  constructor; [split | constructor].
  - vm_compute. reflexivity.
  - left. exists FaultEACCES. vm_compute. reflexivity.
Defined.

(** Files that are all on disk: the loop writes nothing and leaves the item
    as it is, also when a directory call fails on the way. *)
Lemma Save_loop_existing it files w it' err w' :
  Forall (fun entry => stat_err (item_file it entry) w = None) files ->
  Handlers.Save_loop it files w = ((it', err), w') ->
  it' = it /\ exists evs, extends_by evs w w' /\ Forall (fun e => is_mkdir e = true) evs.
Proof.
  revert w. induction files as [|[name text] rest IH]; intros w Hall; simpl.
  - intros [= <- <- <-]. split; [done |]. exists [].
    split; [apply extends_by_refl | done].
  - apply Forall_cons in Hall as [Hhd Hall]. unfold item_file in Hhd. simpl in Hhd.
    unfold bind.
    destruct (MkdirAll_spec (Filepath.Dir (Handlers.dir it +:+ "/"
                +:+ Api.ID (Handlers.Problem it) +:+ "/" +:+ name)) w)
      as (e1 & He1 & Hm1 & _).
    destruct (OS.MkdirAll _ w) as [[e|] w1]; simpl in *.
    { intros [= <- <- <-]. split; [done |]. by exists e1. }
    destruct (Stat_eq (Handlers.dir it +:+ "/" +:+ Api.ID (Handlers.Problem it)
                       +:+ "/" +:+ name) w1) as [n ->].
    rewrite (stat_err_None_mono _ _ _ _ He1 Hhd).
    intros Hrest. apply IH in Hrest as [-> (e2 & He2 & Hm2)].
    + split; [done |]. exists (e1 ++ e2).
      split; [by eapply extends_by_trans | by apply Forall_app].
    + eapply Forall_impl; [exact Hall |]. intros entry.
      by apply stat_err_None_mono with (evs := e1).
Qed.

(** C2. Classification of [Item.Save] on a freshly built item: [New] when
    the existence check of the item directory answers "does not exist" before
    the loop; otherwise, with the directory there, [Updated] when the loop
    made at least one [WriteFile] call (a file was found missing at its check
    and written) and [Unchanged] when it made none; and when every file of
    the mapping is on disk beforehand no write is made and the result is
    [Unchanged]. *)
Theorem save_classification (problem : Api.Problem) (dir : string) (w : World) :
  let it := NewItem problem dir in
  let r := Handlers.Save it w in
  (forall err, stat_err (Handlers.Path it) w = Some err -> OS.IsNotExist err = true ->
     classification r.1.1 = New) /\
  (stat_err (Handlers.Path it) w = None ->
     existsb is_write (events_since w r.2) = true ->
     classification r.1.1 = Updated) /\
  (stat_err (Handlers.Path it) w = None ->
     existsb is_write (events_since w r.2) = false ->
     classification r.1.1 = Unchanged) /\
  (stat_err (Handlers.Path it) w = None ->
     Forall (fun entry => stat_err (item_file it entry) w = None) (Api.Files problem) ->
     existsb is_write (events_since w r.2) = false /\
     classification r.1.1 = Unchanged).
Proof.
  intros it r. subst r.
  destruct (Handlers.Save it w) as [[it' err] w'] eqn:Hs.
  destruct (Save_spec _ _ _ _ _ Hs) as (evs & He & _ & _ & _ & _ & HN & HU & _).
  simpl in *. rewrite (extends_by_events _ _ _ He).
  unfold classification, Handlers.Matches, dir_missing in *.
  split; [| split; [| split]].
  - intros serr Hst Hne. rewrite Hst, Hne in HN. by rewrite HN.
  - intros Hst Hw. rewrite Hst in HN. rewrite HN in *. by rewrite HU, Hw.
  - intros Hst Hw. rewrite Hst in HN. rewrite HN in *. by rewrite HU, Hw.
  - intros Hst Hall. rewrite Hst in HN. rewrite HN in *.
    assert (existsb is_write evs = false) as Hw.
    { unfold Handlers.Save, bind in Hs.
      destruct (Stat_eq (Handlers.Path it) w) as [n Hn]. rewrite Hn, Hst in Hs.
      apply Save_loop_existing in Hs as [_ (e2 & He2 & Hm2)]; [| done].
      assert (evs = e2) as ->.
      { destruct He as [_ _ _ _ Hl1], He2 as [_ _ _ _ Hl2].
        rewrite Hl1 in Hl2. by apply app_inv_head in Hl2. }
      by apply existsb_write_mkdirs. }
    by rewrite HU, Hw.
Qed.

Lemma save_classification_witness :
  classification (Handlers.Save (NewItem demo_problem "/ex") empty_world).1.1 = New /\
  classification (Handlers.Save (NewItem demo_problem "/ex") demo_world).1.1 = Updated /\
  classification
    (Handlers.Save (NewItem demo_problem "/ex")
       (Handlers.Save (NewItem demo_problem "/ex") demo_world).2).1.1 = Unchanged.
Proof.
  split; [| split].
  - eapply (save_classification demo_problem "/ex" empty_world);
      vm_compute; reflexivity.
  - apply (save_classification demo_problem "/ex" demo_world);
      vm_compute; reflexivity.
  - apply (save_classification demo_problem "/ex"
             (Handlers.Save (NewItem demo_problem "/ex") demo_world).2).
    + vm_compute. reflexivity.
    + repeat constructor; vm_compute; reflexivity.
Defined.

(** C3, as the claim states it, fails: an item without files saved twice
    on an empty disk is classified [New] both times, because the first save
    creates nothing and the item directory is still missing at the second. *)
Lemma empty_mapping_saved_twice_is_new :
  let first := Handlers.Save (NewItem empty_problem "/ex") empty_world in
  let second := Handlers.Save (NewItem empty_problem "/ex") first.2 in
  first.1.2 = None /\ second.1.2 = None /\
  events_since first.2 second.2 = [] /\
  classification second.1.1 <> Unchanged.
Proof. vm_compute. repeat split; discriminate. Qed.

(** C3, amended. After a save that returned nil, a second save of the same
    assignment, with the files visited in any order, returns nil, makes no
    [WriteFile] call and creates no directory: [SaveAssignment] changes no
    node and only prints its summary line, [Item.Save] leaves the whole world
    as it is.  The second [Item.Save] classifies [Unchanged] when the item
    directory exists by then and [New] when it is still missing. *)
Theorem save_twice (dir : string) (a a' : Main.Assignment) (p p' : Api.Problem)
    (w wa v wi : World) (it1 : Handlers.Item) :
  (Main.SaveAssignment dir a w = (None, wa) ->
   Main.Track a' = Main.Track a -> Main.Slug a' = Main.Slug a ->
   Main.Files a' ≡ₚ Main.Files a ->
   (Main.SaveAssignment dir a' wa).1 = None /\
   nodes (Main.SaveAssignment dir a' wa).2 = nodes wa /\
   events_since wa (Main.SaveAssignment dir a' wa).2 = [EvPrint (summary_line a')]) /\
  (Handlers.Save (NewItem p dir) v = ((it1, None), wi) ->
   Api.ID p' = Api.ID p -> Api.Files p' ≡ₚ Api.Files p ->
   (Handlers.Save (NewItem p' dir) wi).2 = wi /\
   (Handlers.Save (NewItem p' dir) wi).1.2 = None /\
   classification (Handlers.Save (NewItem p' dir) wi).1.1 =
     if dir_missing (NewItem p' dir) wi then New else Unchanged).
Proof.
  split.
  - intros Hs Ht Hsl Hperm.
    destruct (SaveAssignment_spec _ _ _ _ _ Hs) as (evs & He & _ & Hall).
    apply SaveAssignment_idle. rewrite Hperm.
    unfold assignment_root in *. rewrite Ht, Hsl. by apply Hall.
  - intros Hs Hid Hperm.
    destruct (Save_spec _ _ _ _ _ Hs) as (evs & He & _ & _ & _ & _ & _ & _ & Hall).
    destruct (Hall eq_refl) as [Hnf Hpresent]. simpl in *.
    assert (Forall (fun entry => present (item_file (NewItem p' dir) entry) wi)
              (Api.Files p')) as Hp'.
    { rewrite Hperm. eapply Forall_impl; [exact Hpresent |].
      intros entry. unfold item_file. simpl. by rewrite Hid. }
    unfold Handlers.Save, bind, dir_missing.
    assert (Handlers.Path (NewItem p' dir) = Handlers.Path (NewItem p dir)) as HP
      by (unfold Handlers.Path; simpl; by rewrite Hid).
    destruct (Stat_eq (Handlers.Path (NewItem p' dir)) wi) as [n ->].
    destruct (stat_err (Handlers.Path (NewItem p' dir)) wi) as [serr|] eqn:Hst.
    + assert (OS.IsNotExist serr = true) as Hne.
      { revert Hst. unfold stat_err, OS.Stat. rewrite HP.
        destruct He as [-> _ _ _ _]. rewrite Hnf.
        case_match; simpl; [done | by intros [= <-]]. }
      rewrite Hne. simpl. rewrite Save_loop_idle; [done |].
      eapply Forall_impl; [exact Hp' |]. by intros entry.
    + simpl. by rewrite Save_loop_idle.
Qed.

Lemma save_twice_witness :
  Main.SaveAssignment "/ex" demo_assignment demo_world =
    (None, (Main.SaveAssignment "/ex" demo_assignment demo_world).2) /\
  Handlers.Save (NewItem demo_problem "/ex") empty_world =
    (((Handlers.Save (NewItem demo_problem "/ex") empty_world).1.1, None),
     (Handlers.Save (NewItem demo_problem "/ex") empty_world).2) /\
  events_since (Main.SaveAssignment "/ex" demo_assignment demo_world).2
    (Main.SaveAssignment "/ex" demo_assignment_reordered
       (Main.SaveAssignment "/ex" demo_assignment demo_world).2).2 =
    [EvPrint (summary_line demo_assignment_reordered)] /\
  classification
    (Handlers.Save (NewItem demo_problem_reordered "/ex")
       (Handlers.Save (NewItem demo_problem "/ex") empty_world).2).1.1 = Unchanged.
Proof.
  assert (Main.SaveAssignment "/ex" demo_assignment demo_world =
            (None, (Main.SaveAssignment "/ex" demo_assignment demo_world).2)) as H1
    by (vm_compute; reflexivity).
  assert (Handlers.Save (NewItem demo_problem "/ex") empty_world =
            (((Handlers.Save (NewItem demo_problem "/ex") empty_world).1.1, None),
             (Handlers.Save (NewItem demo_problem "/ex") empty_world).2)) as H2
    by (vm_compute; reflexivity).
  split; [exact H1 |]. split; [exact H2 |].
  destruct (save_twice "/ex" demo_assignment demo_assignment_reordered
              demo_problem demo_problem_reordered demo_world
              (Main.SaveAssignment "/ex" demo_assignment demo_world).2 empty_world
              (Handlers.Save (NewItem demo_problem "/ex") empty_world).2
              (Handlers.Save (NewItem demo_problem "/ex") empty_world).1.1)
    as [Ha Hi].
  split.
  - apply (Ha H1 eq_refl eq_refl). apply Permutation_swap.
  - destruct (Hi H2 eq_refl) as (_ & _ & ->); [apply Permutation_swap |].
    vm_compute. reflexivity.
Defined.

(** ** Facts about Go's string functions *)

Lemma prefix_app p s : String.prefix p (p +:+ s) = true.
Proof.
  induction p as [|c p IH]; [by destruct s |].
  rewrite str_app_cons. simpl. by destruct (ascii_dec c c).
Qed.

Lemma HasPrefix_app p s : Strings.HasPrefix (p +:+ s) p = true.
Proof. apply prefix_app. Qed.

Lemma slice_from_app p s : Strings.slice_from (String.length p) (p +:+ s) = s.
Proof. induction p as [|c p IH]; [by destruct s | done]. Qed.

(** [last_index_at] answers -1 or an offset at or after its start. *)
Lemma last_index_at_range i s sep :
  Strings.last_index_at i s sep = -1 \/ i <= Strings.last_index_at i s sep.
Proof.
  revert i. induction s as [|c s IH]; intros i; simpl.
  - case_match; lia.
  - destruct (IH (i + 1)) as [-> | Hle]; simpl.
    + case_match; lia.
    + case_match; [lia |]. case_match; lia.
Qed.

Lemma last_index_at_cons i c s sep :
  Strings.last_index_at i (String c s) sep =
  if 0 <=? Strings.last_index_at (i + 1) s sep
  then Strings.last_index_at (i + 1) s sep
  else if String.prefix sep (String c s) then i else -1.
Proof. reflexivity. Qed.

(** An occurrence of [sep] after [pre] puts the last index at or after the
    length of [pre]. *)
Lemma last_index_at_found i pre sep post :
  0 <= i ->
  i + Z.of_nat (String.length pre) <=
  Strings.last_index_at i (pre +:+ sep +:+ post) sep.
Proof.
  revert i. induction pre as [|c pre IH]; intros i Hi.
  - rewrite str_app_nil_l. change (Z.of_nat (String.length "")) with 0.
    destruct (sep +:+ post) as [|c s] eqn:Hs.
    + destruct sep; [simpl; lia | done].
    + rewrite last_index_at_cons, <- Hs, prefix_app.
      destruct (last_index_at_range (i + 1) s sep) as [-> | Hle]; simpl; [lia |].
      case_match; lia.
  - rewrite str_app_cons, last_index_at_cons.
    change (String.length (String c pre)) with (S (String.length pre)).
    specialize (IH (i + 1) ltac:(lia)).
    destruct (0 <=? _) eqn:Hnn; [lia |]. apply Z.leb_gt in Hnn. lia.
Qed.

Lemma LastIndex_suffix pre ext :
  pre <> "" -> 0 < Strings.LastIndex (pre +:+ ext) ext.
Proof.
  intros Hpre. unfold Strings.LastIndex.
  pose proof (last_index_at_found 0 pre ext "" ltac:(lia)) as H.
  rewrite str_app_nil_r in H. destruct pre as [|c pre]; [done |].
  change (String.length (String c pre)) with (S (String.length pre)) in H. lia.
Qed.

Lemma IsTest_loop_true exts filename :
  Main.IsTest_loop exts filename = true <->
  exists entry, entry ∈ exts /\ 0 < Strings.LastIndex filename entry.2.
Proof.
  induction exts as [|[lang ext] rest IH]; simpl.
  - split; [done |]. intros (? & []%elem_of_nil & _).
  - destruct (0 <? Strings.LastIndex filename ext) eqn:Hlt.
    + split; [| done]. intros _. exists (lang, ext).
      split; [by left | by apply Z.ltb_lt].
    + rewrite IH. split.
      * intros (entry & Hin & Hpos). exists entry. split; [by right | done].
      * intros (entry & Hin & Hpos). apply elem_of_cons in Hin as [-> | Hin].
        -- simpl in Hpos. apply Z.ltb_lt in Hpos. congruence.
        -- by exists entry.
Qed.

(** The answer of the loop does not depend on the order of the map. *)
Lemma IsTest_loop_order exts exts' filename :
  exts' ≡ₚ exts ->
  Main.IsTest_loop exts' filename = Main.IsTest_loop exts filename.
Proof.
  intros Hperm. apply eq_true_iff_eq. rewrite !IsTest_loop_true.
  by setoid_rewrite Hperm.
Qed.

(** ** The exchange with the service *)

Lemma events_since_emit w e : events_since w (emit e w).2 = [e].
Proof. unfold events_since. simpl. by rewrite drop_app_length. Qed.



(** What [FetchAssignments] sends: nothing, or one GET request on which no
    header has been set. *)
Lemma FetchAssignments_requests env c path w :
  let url := Config.Hostname c +:+ path +:+ "?key=" +:+ Config.APIKey c in
  events_since w (Main.FetchAssignments env c path w).2 = [] \/
  events_since w (Main.FetchAssignments env c path w).2 =
    [EvRequest {| Method := "GET"; URL := url; Header := ∅; Body := None |}].
Proof.
  unfold Main.FetchAssignments, Main.NewRequest, Main.DefaultClient_Do, bind.
  simpl. destruct (Main.NewRequest_error env "GET" _); simpl.
  { left. apply events_since_refl. }
  right. destruct (Main.Do env _) as [resp | err]; simpl.
  - destruct (ReadAll resp) as [body [err|]]; simpl; [apply events_since_emit |].
    destruct (negb _); [destruct (Main.Unmarshal_apiError env body)
                       | destruct (Main.Unmarshal_assignments env body)];
      apply events_since_emit.
  - apply events_since_emit.
Qed.

(** What [UnsubmitAssignment] sends: nothing, or one DELETE request with the
    [User-Agent] header set. *)
Lemma UnsubmitAssignment_requests env c w :
  let url := Config.Hostname c +:+ "/" +:+ "api/v1/user/assignments" +:+ "?key="
               +:+ Config.APIKey c in
  events_since w (Main.UnsubmitAssignment env c w).2 = [] \/
  events_since w (Main.UnsubmitAssignment env c w).2 =
    [EvRequest (Header_Set "User-Agent" (Main.UserAgent env)
                  {| Method := "DELETE"; URL := url; Header := ∅; Body := None |})].
Proof.
  unfold Main.UnsubmitAssignment, Main.NewRequest, Main.DefaultClient_Do, bind.
  simpl. destruct (Main.NewRequest_error env "DELETE" _); simpl.
  { left. apply events_since_refl. }
  right. destruct (Main.Do env _) as [resp | err]; simpl.
  - destruct (ReadAll resp) as [body [err|]]; simpl; [apply events_since_emit |].
    destruct (negb _); [destruct (Main.Unmarshal_unsubmitError env body) |];
      apply events_since_emit.
  - apply events_since_emit.
Qed.

(** What [SubmitAssignment] sends: nothing, or one POST request with the
    [User-Agent] and [Content-Type] headers set. *)
Lemma SubmitAssignment_requests env c filePath code w :
  let submission := {| Main.Key := Config.APIKey c; Main.Code := code;
                       Main.Path := filePath |} in
  events_since w (Main.SubmitAssignment env c filePath code w).2 = [] \/
  events_since w (Main.SubmitAssignment env c filePath code w).2 =
    [EvRequest (submit_request env c (Main.Marshal_submitRequest env submission).1)].
Proof.
  unfold Main.SubmitAssignment, Main.NewRequest, Main.DefaultClient_Do, bind,
    submit_request.
  simpl. destruct (Main.Marshal_submitRequest env _) as [json [err|]]; simpl.
  { left. apply events_since_refl. }
  destruct (Main.NewRequest_error env "POST" _); simpl.
  { left. apply events_since_refl. }
  right. destruct (Main.Do env _) as [resp | err]; simpl.
  - destruct (ReadAll resp) as [body [err|]]; simpl; [apply events_since_emit |].
    destruct (negb _); destruct (Main.Unmarshal_submitResponse env body);
      apply events_since_emit.
  - apply events_since_emit.
Qed.

Lemma Header_Get_Set key value req :
  Header_Get key (Header_Set key value req) = Some value.
Proof. unfold Header_Get, Header_Set. simpl. by rewrite lookup_insert_eq. Qed.

Lemma Header_Get_Set_ne key key' value req :
  key' <> key -> Header_Get key (Header_Set key' value req) = Header_Get key req.
Proof.
  intros Hne. unfold Header_Get, Header_Set. simpl. by rewrite lookup_insert_ne.
Qed.

(** The submit and unsubmit requests carry the client's [User-Agent]. *)
Lemma submit_unsubmit_user_agent env c filePath code w req :
  EvRequest req ∈ events_since w (Main.SubmitAssignment env c filePath code w).2 \/
  EvRequest req ∈ events_since w (Main.UnsubmitAssignment env c w).2 ->
  Header_Get "User-Agent" req = Some (Main.UserAgent env).
Proof.
  intros [Hin | Hin].
  - destruct (SubmitAssignment_requests env c filePath code w) as [H | H];
      rewrite H in Hin; [by apply elem_of_nil in Hin |].
    apply list_elem_of_singleton in Hin. injection Hin as ->.
    unfold submit_request. rewrite Header_Get_Set_ne; [| done].
    apply Header_Get_Set.
  - destruct (UnsubmitAssignment_requests env c w) as [H | H];
      rewrite H in Hin; [by apply elem_of_nil in Hin |].
    apply list_elem_of_singleton in Hin. injection Hin as ->.
    apply Header_Get_Set.
Qed.

(** The fetch request carries no header at all. *)
Lemma fetch_no_header env c path w req :
  EvRequest req ∈ events_since w (Main.FetchAssignments env c path w).2 ->
  Header req = ∅.
Proof.
  intros Hin.
  destruct (FetchAssignments_requests env c path w) as [H | H];
    rewrite H in Hin; [by apply elem_of_nil in Hin |].
  apply list_elem_of_singleton in Hin. by injection Hin as ->.
Qed.

(** C4, on the code: fetching the current assignments sends one GET request
    on which the client has set no [User-Agent] (nor any other header),
    whereas the POST of a submission and the DELETE of an unsubmit carry
    [github.com/exercism/cli v1.7.0 (linux/amd64)] on a Linux build. *)
Theorem fetch_request_without_user_agent :
  let env := demo_env reply_created in
  let fetch := Main.FetchAssignments env demo_config
                 "/api/v1/user/assignments/current" empty_world in
  let submit := Main.SubmitAssignment env demo_config "python/bob/bob.py"
                  "def hey(): pass" empty_world in
  let unsubmit := Main.UnsubmitAssignment env demo_config empty_world in
  (exists req, log fetch.2 = [EvRequest req] /\ Method req = "GET" /\
     Header_Get "User-Agent" req = None) /\
  (exists req, log submit.2 = [EvRequest req] /\ Method req = "POST" /\
     Header_Get "User-Agent" req = Some "github.com/exercism/cli v1.7.0 (linux/amd64)") /\
  (exists req, log unsubmit.2 = [EvRequest req] /\ Method req = "DELETE" /\
     Header_Get "User-Agent" req = Some "github.com/exercism/cli v1.7.0 (linux/amd64)").
Proof.
  split; [| split]; eexists; (split; [vm_compute; reflexivity |]);
    split; vm_compute; reflexivity.
Qed.

(** The answer of [SubmitAssignment] once the request has gone out and the
    body has been read. *)
Lemma SubmitAssignment_answer env c filePath code w json resp body :
  Main.Marshal_submitRequest env
    {| Main.Key := Config.APIKey c; Main.Code := code; Main.Path := filePath |}
    = (json, None) ->
  Main.NewRequest_error env "POST"
    (Config.Hostname c +:+ "/" +:+ "api/v1/user/assignments") = None ->
  Main.Do env (submit_request env c json) = inl resp ->
  ReadAll resp = (body, None) ->
  (Main.SubmitAssignment env c filePath code w).1 =
    if StatusCode resp =? 201 then
      match Main.Unmarshal_submitResponse env body with
      | inl r => (Some r, None)
      | inr err => (None, Some (errorString ("Error parsing API response: ["
                                            +:+ error_Error err +:+ "]")))
      end
    else
      match Main.Unmarshal_submitResponse env body with
      | inl r => (None, Some (errorString ("Status: " +:+ pretty (StatusCode resp)
                                          +:+ ", Error: " +:+ Main.submitResponse_v r)))
      | inr err => (None, Some err)
      end.
Proof.
  intros Hm Hn Hdo Hread.
  unfold Main.SubmitAssignment, Main.NewRequest, Main.DefaultClient_Do, bind.
  rewrite Hm. simpl. rewrite Hn. simpl.
  unfold submit_request in Hdo. rewrite Hdo. simpl. rewrite Hread.
  destruct (StatusCode resp =? 201); simpl;
    by destruct (Main.Unmarshal_submitResponse env body).
Qed.




(** ** The submit action: resolving the path *)

Lemma absolutePath_world env path w : (Main.absolutePath env path w).2 = w.
Proof.
  unfold Main.absolutePath, Main.filepath_EvalSymlinks, bind.
  destruct (Main.filepath_Abs env path) as [p [err|]]; [done |].
  destruct (Stat_eq p w) as [n ->]. by destruct (stat_err p w).
Qed.

(** The action up to the point where the path has been resolved. *)
Lemma submitAction_resolved env ctx filename rest c absPath w :
  Main.Args ctx = filename :: rest ->
  Main.config_Read env (Main.GlobalString_config ctx) = (c, None) ->
  Main.IsAuthenticated env c = true ->
  (Main.absolutePath env filename w).1 = (absPath, None) ->
  Main.submitAction env ctx w =
    let exDir := Config.Dir c +:+ String (Main.Separator env) "" in
    if negb (Strings.HasPrefix absPath exDir) then
      Printf (absPath +:+ " is not under your exercism project path ("
             +:+ exDir +:+ ")" +:+ newline) w
    else
      let relative := Strings.slice_from (String.length exDir) absPath in
      if Main.IsTest relative then
        Println ["It looks like this is a test, please submit a solution."] w
      else
        (let* (code, err) := Main.ReadFile absPath in
         match err with
         | Some err =>
             Printf ("Error reading " +:+ absPath +:+ ": " +:+ error_Error err
                    +:+ newline)
         | None =>
             let* result := Main.SubmitAssignment env c relative code in
             Main.submitReport c result
         end) w.
Proof.
  intros Hargs Hcfg Hauth Habs. unfold Main.submitAction.
  rewrite Hargs, Hcfg, Hauth. simpl. unfold bind at 1.
  pose proof (absolutePath_world env filename w) as Hw.
  destruct (Main.absolutePath env filename w) as [[p e] w'].
  simpl in *. subst w'. injection Habs as -> ->.
  destruct (negb (Strings.HasPrefix absPath _)); [done |].
  by destruct (Main.IsTest _).
Qed.

(** C5. Test files: in whatever order the extensions are visited, a
    relative path made of a non-empty prefix followed by one of the
    test-file suffixes is flagged, and a path that is exactly one of the
    suffixes is not (the suffix then sits at index 0); when the resolved path
    of a submission is flagged, the action prints the test-file message and
    sends no request. *)
Theorem test_files_are_refused (env : Main.Env) (ctx : Main.Context)
    (filename : string) (rest : list string) (c : Config.Config) (w : World)
    (exts : list (string * string)) (lang ext pre : string) :
  exts ≡ₚ Main.testExtensions ->
  (lang, ext) ∈ Main.testExtensions ->
  (pre <> "" -> Main.IsTest_loop exts (pre +:+ ext) = true) /\
  Main.IsTest_loop exts ext = false /\
  (pre <> "" ->
   Main.Args ctx = filename :: rest ->
   Main.config_Read env (Main.GlobalString_config ctx) = (c, None) ->
   Main.IsAuthenticated env c = true ->
   (Main.absolutePath env filename w).1 =
     ((Config.Dir c +:+ String (Main.Separator env) "") +:+ pre +:+ ext, None) ->
   events_since w (Main.submitAction env ctx w).2 =
     [EvPrint ("It looks like this is a test, please submit a solution." +:+ newline)]).
Proof.
  intros Hperm Hin.
  assert (pre <> "" -> Main.IsTest (pre +:+ ext) = true) as Hflag.
  { intros Hpre. apply IsTest_loop_true. exists (lang, ext).
    split; [done | by apply LastIndex_suffix]. }
  split; [| split].
  - intros Hpre. rewrite (IsTest_loop_order _ _ _ Hperm). by apply Hflag.
  - rewrite (IsTest_loop_order _ _ _ Hperm).
    unfold Main.testExtensions in Hin.
    repeat (apply elem_of_cons in Hin as [[= -> ->] | Hin];
            [vm_compute; reflexivity |]).
    by apply elem_of_nil in Hin.
  - intros Hpre Hargs Hcfg Hauth Habs.
    rewrite (submitAction_resolved _ _ _ _ _ _ _ Hargs Hcfg Hauth Habs).
    cbv zeta. rewrite HasPrefix_app, slice_from_app, (Hflag Hpre). simpl.
    apply events_since_emit.
Qed.

Lemma test_files_are_refused_witness :
  Main.IsTest "python/bob/bob_test.py" = true /\
  Main.IsTest "_test.py" = false /\
  events_since submit_world
    (Main.submitAction (demo_env reply_created)
       (submit_ctx "/ex/python/bob/bob_test.py") submit_world).2 =
    [EvPrint ("It looks like this is a test, please submit a solution." +:+ newline)].
Proof.
  assert (("python", "_test.py") ∈ Main.testExtensions) as Hin
    by (unfold Main.testExtensions; do 4 right; left).
  destruct (test_files_are_refused (demo_env reply_created)
              (submit_ctx "/ex/python/bob/bob_test.py")
              "/ex/python/bob/bob_test.py" [] demo_config submit_world
              Main.testExtensions "python" "_test.py" "python/bob/bob"
              (reflexivity _) Hin) as (Hflag & Hexact & Haction).
  split; [apply Hflag; discriminate |]. split; [exact Hexact |].
  apply Haction;
    [discriminate | reflexivity | reflexivity | reflexivity | vm_compute; reflexivity].
Defined.

(** C7. Outside the project: when the resolved absolute path does not start
    with the exercise directory followed by the separator, the action prints
    that the path is not under the project path, naming the absolute path and
    the directory with its separator, and does nothing else: no request is
    sent. *)
Theorem submit_outside_project (env : Main.Env) (ctx : Main.Context)
    (filename : string) (rest : list string) (c : Config.Config)
    (absPath : string) (w : World) :
  Main.Args ctx = filename :: rest ->
  Main.config_Read env (Main.GlobalString_config ctx) = (c, None) ->
  Main.IsAuthenticated env c = true ->
  (Main.absolutePath env filename w).1 = (absPath, None) ->
  Strings.HasPrefix absPath (Config.Dir c +:+ String (Main.Separator env) "") = false ->
  let exDir := Config.Dir c +:+ String (Main.Separator env) "" in
  events_since w (Main.submitAction env ctx w).2 =
    [EvPrint (absPath +:+ " is not under your exercism project path (" +:+ exDir
              +:+ ")" +:+ newline)] /\
  existsb is_request (events_since w (Main.submitAction env ctx w).2) = false.
Proof.
  intros Hargs Hcfg Hauth Habs Hout exDir.
  rewrite (submitAction_resolved _ _ _ _ _ _ _ Hargs Hcfg Hauth Habs).
  cbv zeta. rewrite Hout. unfold negb, Printf. by rewrite events_since_emit.
Qed.

Lemma submit_outside_project_witness :
  events_since submit_world
    (Main.submitAction (demo_env reply_created) (submit_ctx "/tmp/scratch.py")
       submit_world).2 =
    [EvPrint ("/tmp/scratch.py is not under your exercism project path (/ex/)"
              +:+ newline)] /\
  existsb is_request
    (events_since submit_world
       (Main.submitAction (demo_env reply_created) (submit_ctx "/tmp/scratch.py")
          submit_world).2) = false.
Proof.
  apply (submit_outside_project (demo_env reply_created) (submit_ctx "/tmp/scratch.py")
           "/tmp/scratch.py" [] demo_config "/tmp/scratch.py" submit_world);
    vm_compute; reflexivity.
Defined.



(** * Further properties *)

(** ** [FetchEndpoint] *)

Lemma fold_endpoint_app args start :
  fold_left (fun endpoint arg => endpoint +:+ "/" +:+ arg) args start =
  start +:+ fold_left (fun endpoint arg => endpoint +:+ "/" +:+ arg) args "".
Proof.
  revert start. induction args as [|arg args IH]; intros start; simpl.
  - by rewrite str_app_nil_r.
  - rewrite IH, (IH ("" +:+ "/" +:+ arg)), str_app_nil_l.
    by rewrite !str_app_assoc.
Qed.

Lemma fold_endpoint_join arg args :
  fold_left (fun endpoint a => endpoint +:+ "/" +:+ a) (arg :: args) "" =
  "/" +:+ Strings.Join (arg :: args) "/".
Proof.
  revert arg. induction args as [|arg' args IH]; intros arg.
  - done.
  - change (fold_left _ (arg :: arg' :: args) "") with
      (fold_left (fun endpoint a => endpoint +:+ "/" +:+ a) (arg' :: args)
         ("" +:+ "/" +:+ arg)).
    rewrite fold_endpoint_app, IH, str_app_nil_l.
    change (Strings.Join (arg :: arg' :: args) "/") with
      (arg +:+ "/" +:+ Strings.Join (arg' :: args) "/").
    by rewrite !str_app_assoc.
Qed.

(** X1. [FetchEndpoint] without arguments is the endpoint of the current
    assignments; with arguments it is the exercise endpoint followed by the
    arguments, each preceded by a slash, so the arguments joined by slashes
    under [/api/v1/assignments/]. *)
Theorem FetchEndpoint_path (args : list string) :
  Main.FetchEndpoint [] = "/api/v1/user/assignments/current" /\
  (args <> [] ->
   Main.FetchEndpoint args = "/api/v1/assignments/" +:+ Strings.Join args "/").
Proof.
  split; [reflexivity |]. intros Hne. destruct args as [|arg args]; [done |].
  unfold Main.FetchEndpoint. rewrite fold_endpoint_app, fold_endpoint_join.
  change (Main.map_index Main.FetchEndpoints "exercise") with "/api/v1/assignments".
  by rewrite <- str_app_assoc.
Qed.

Lemma FetchEndpoint_path_witness :
  Main.FetchEndpoint ["ruby"; "bob"] = "/api/v1/assignments/ruby/bob".
Proof.
  destruct (FetchEndpoint_path ["ruby"; "bob"]) as [_ H].
  rewrite H; [reflexivity | discriminate].
Defined.

(** ** [IsTest] *)

Lemma prefix_true p s :
  String.prefix p s = true -> exists post, s = p +:+ post.
Proof.
  revert s. induction p as [|c p IH]; intros s.
  - intros _. by exists s.
  - destruct s as [|c' s]; simpl; [done |].
    destruct (ascii_dec c c') as [<- |]; [| done].
    intros [post ->]%IH. by exists post.
Qed.

Lemma last_index_at_nil i sep :
  Strings.last_index_at i "" sep = if String.prefix sep "" then i else -1.
Proof. reflexivity. Qed.

(** A non-negative answer of [last_index_at] is the offset of an occurrence. *)
Lemma last_index_at_sound i s sep :
  0 <= i -> 0 <= Strings.last_index_at i s sep ->
  exists pre post, s = pre +:+ sep +:+ post /\
    Strings.last_index_at i s sep = i + Z.of_nat (String.length pre).
Proof.
  revert i. induction s as [|c s IH]; intros i Hi.
  - rewrite last_index_at_nil.
    destruct (String.prefix sep "") eqn:Hp; [| intros; lia]. intros _.
    apply prefix_true in Hp as [post Hp]. exists "", post.
    split; [done | simpl; lia].
  - rewrite last_index_at_cons.
    destruct (0 <=? Strings.last_index_at (i + 1) s sep) eqn:Hr.
    + intros _. apply Z.leb_le in Hr.
      destruct (IH (i + 1) ltac:(lia) Hr) as (pre & post & -> & Heq).
      exists (String c pre), post. split; [done |]. rewrite Heq.
      change (String.length (String c pre)) with (S (String.length pre)). lia.
    + destruct (String.prefix sep (String c s)) eqn:Hp; [| intros; lia]. intros _.
      apply prefix_true in Hp as [post Hp]. exists "", post.
      split; [done | simpl; lia].
Qed.

(** X2. [IsTest] holds exactly of the names in which one of the test
    suffixes occurs after a non-empty prefix, whatever follows the
    occurrence: the test is one of containment past index 0, not of ending
    in the suffix. *)
Theorem IsTest_iff_occurrence (filename : string) :
  Main.IsTest filename = true <->
  exists lang ext pre post,
    (lang, ext) ∈ Main.testExtensions /\ pre <> "" /\
    filename = pre +:+ ext +:+ post.
Proof.
  unfold Main.IsTest. rewrite IsTest_loop_true. split.
  - intros ([lang ext] & Hin & Hpos). simpl in Hpos.
    destruct (last_index_at_sound 0 filename ext ltac:(lia))
      as (pre & post & Hf & Heq); [unfold Strings.LastIndex in Hpos; lia |].
    exists lang, ext, pre, post. split; [done |]. split; [| done].
    intros ->. unfold Strings.LastIndex in Hpos. rewrite Heq in Hpos.
    simpl in Hpos. lia.
  - intros (lang & ext & pre & post & Hin & Hpre & ->).
    exists (lang, ext). split; [done |]. simpl. unfold Strings.LastIndex.
    pose proof (last_index_at_found 0 pre ext post ltac:(lia)) as H.
    destruct pre as [|c pre]; [done |].
    change (String.length (String c pre)) with (S (String.length pre)) in H. lia.
Qed.

Lemma IsTest_iff_occurrence_witness :
  Main.IsTest "my_test.py_backup" = true /\ Main.IsTest "bob.py" = false.
Proof.
  split.
  - apply (IsTest_iff_occurrence "my_test.py_backup").
    exists "python", "_test.py", "my", "_backup".
    split; [unfold Main.testExtensions; do 4 right; left |].
    split; [discriminate | reflexivity].
  - vm_compute. reflexivity.
Defined.

(** ** What a save does to the tree, event by event *)

Lemma traced_refl w : traced [] w w.
Proof. split; [apply extends_by_refl | auto]. Qed.

Lemma traced_trans e1 e2 w1 w2 w3 :
  traced e1 w1 w2 -> traced e2 w2 w3 -> traced (e1 ++ e2) w1 w3.
Proof.
  intros [He1 Hn1] [He2 Hn2]. split; [by eapply extends_by_trans |].
  intros k n Hk. destruct (Hn2 k n Hk) as [Hk2 | [[-> Hin] | (d & -> & Hin)]].
  - destruct (Hn1 k n Hk2) as [? | [[-> Hin] | (d & -> & Hin)]].
    + by left.
    + right. left. split; [done |]. apply elem_of_app. by left.
    + right. right. exists d. split; [done |]. apply elem_of_app. by left.
  - right. left. split; [done |]. apply elem_of_app. by right.
  - right. right. exists d. split; [done |]. apply elem_of_app. by right.
Qed.

Lemma traced_emit e w : traced [e] w (emit e w).2.
Proof. split; [apply emit_extends | auto]. Qed.

Lemma Mkdir_traced path w :
  exists evs, traced evs w (OS.Mkdir path w).2 /\
    Forall (fun e => is_mkdir e = true) evs.
Proof.
  unfold OS.Mkdir.
  destruct (mkdirFault w !! _) eqn:Hf; [| destruct (nodes w !! _) eqn:Hn]; simpl.
  - exists []. split; [apply traced_refl | done].
  - exists []. split; [apply traced_refl | done].
  - exists [EvMkdir (Filepath.Clean path)]. split; [| by repeat constructor].
    split.
    + split; try done. simpl. by apply insert_subseteq.
    + simpl. intros k n Hk.
      destruct (decide (k = Filepath.Clean path)) as [-> | Hne].
      * rewrite lookup_insert_eq in Hk. injection Hk as <-.
        right. left. split; [done | by left].
      * rewrite lookup_insert_ne in Hk; [by left | done].
Qed.

Lemma mkdirAll_chain_traced chain w :
  exists evs, traced evs w (OS.mkdirAll_chain chain w).2 /\
    Forall (fun e => is_mkdir e = true) evs.
Proof.
  revert w. induction chain as [|path ancestors IH]; intros w; simpl.
  - exists []. split; [apply traced_refl | done].
  - destruct (nodes w !! Filepath.Clean path) as [[c|]|] eqn:Hn; simpl.
    + exists []. split; [apply traced_refl | done].
    + exists []. split; [apply traced_refl | done].
    + unfold bind. destruct (IH w) as (e1 & He1 & Hm1).
      destruct (OS.mkdirAll_chain ancestors w) as [[err|] w1]; simpl in *.
      * by exists e1.
      * destruct (Mkdir_traced path w1) as (e2 & He2 & Hm2).
        exists (e1 ++ e2). split; [by eapply traced_trans | by apply Forall_app].
Qed.

Lemma MkdirAll_traced path w :
  exists evs, traced evs w (OS.MkdirAll path w).2 /\
    Forall (fun e => is_mkdir e = true) evs.
Proof. apply mkdirAll_chain_traced. Qed.

Lemma WriteFile_traced path data w :
  nodes w !! Filepath.Clean path = None ->
  traced [EvWriteFile (Filepath.Clean path) data] w (OS.WriteFile path data w).2 /\
  landed (OS.WriteFile path data w).2 (EvWriteFile (Filepath.Clean path) data) /\
  ((OS.WriteFile path data w).1 = None <-> writeFault w !! Filepath.Clean path = None).
Proof.
  intros Hn. unfold OS.WriteFile, bind, emit, put_node, ret, landed. simpl.
  destruct (writeFault w !! _) eqn:Hf; simpl.
  - split; [| split; [congruence | done]].
    split; [by split | auto].
  - rewrite Hn. simpl. split; [| split; [| done]].
    + split.
      * split; try done. simpl. by apply insert_subseteq.
      * simpl. intros k n Hk.
        destruct (decide (k = Filepath.Clean path)) as [-> | Hne].
        -- rewrite lookup_insert_eq in Hk. injection Hk as <-.
           right. right. exists data. split; [done | by left].
        -- rewrite lookup_insert_ne in Hk; [by left | done].
    + intros _. apply lookup_insert_eq.
Qed.

Lemma landed_mono evs w w' e :
  extends_by evs w w' -> landed w e -> landed w' e.
Proof.
  intros Hext. destruct e as [|k d| |]; simpl; try done.
  intros Hl Hf. eapply extends_by_node; [done |]. apply Hl.
  destruct Hext. congruence.
Qed.

Lemma landed_of_mkdirs w evs :
  Forall (fun e => is_mkdir e = true) evs -> Forall (landed w) evs.
Proof. intros H. eapply Forall_impl; [exact H |]. by intros []. Qed.

Lemma from_mapping_of_mkdirs file_of files evs :
  Forall (fun e => is_mkdir e = true) evs -> Forall (from_mapping file_of files) evs.
Proof. intros H. eapply Forall_impl; [exact H |]. by intros []. Qed.

Lemma from_mapping_cons file_of entry files e :
  from_mapping file_of files e -> from_mapping file_of (entry :: files) e.
Proof.
  destruct e as [|k d| |]; simpl; try done.
  intros (x & Hin & Hk & Hd). exists x. split; [by right | done].
Qed.

(** The events of the [SaveAssignment] loop, the tree it leaves and the
    error it returns. *)
Lemma SaveAssignment_loop_traced root files w err w' :
  Main.SaveAssignment_loop root files w = (err, w') ->
  exists evs, traced evs w w' /\
    Forall (from_mapping (target root) files) evs /\
    Forall (landed w') evs /\
    (forall e, err = Some e -> exists msg, e = errorString msg /\
       (String.prefix "Error making directory " msg = true \/
        String.prefix "Error writing file " msg = true)).
Proof.
  revert w err w'. induction files as [|[name text] rest IH]; simpl.
  - intros w err w' [= <- <-]. exists []. split; [apply traced_refl | done].
  - intros w err w'. unfold bind.
    set (file := root +:+ "/" +:+ name).
    destruct (MkdirAll_traced (Filepath.Dir file) w) as (e1 & He1 & Hm1).
    destruct (OS.MkdirAll _ w) as [[e|] w1]; simpl in *.
    { intros [= <- <-]. exists e1. split; [done |].
      split; [by apply from_mapping_of_mkdirs |].
      split; [by apply landed_of_mkdirs |].
      intros ? [= <-]. eexists. split; [done |]. left. apply prefix_app. }
    destruct (Stat_eq file w1) as [n ->].
    destruct (stat_err file w1) as [serr|] eqn:Hst.
    + destruct (OS.IsNotExist serr) eqn:Hne.
      * destruct (stat_err_NotExist _ _ _ Hst Hne) as [Hnone _].
        destruct (WriteFile_traced file text w1 Hnone) as (He2 & Hl2 & _).
        assert (from_mapping (target root) ((name, text) :: rest)
                  (EvWriteFile (Filepath.Clean file) text)) as Hfm.
        { exists (name, text). split; [by left | done]. }
        destruct (OS.WriteFile _ text w1) as [[e|] w2]; simpl in *.
        { intros [= <- <-]. eexists. split; [by eapply traced_trans |].
          split; [| split].
          - apply Forall_app. split; [by apply from_mapping_of_mkdirs |].
            by constructor.
          - apply Forall_app. split; [by apply landed_of_mkdirs | by constructor].
          - intros ? [= <-]. eexists. split; [done |]. right. apply prefix_app. }
        intros Hrest.
        destruct (IH _ _ _ Hrest) as (e3 & He3 & Hf3 & Hl3 & Herr).
        exists ((e1 ++ [EvWriteFile (Filepath.Clean file) text]) ++ e3).
        split; [eapply traced_trans; [by eapply traced_trans | done] |].
        split; [| split; [| done]].
        -- apply Forall_app. split.
           ++ apply Forall_app. split; [by apply from_mapping_of_mkdirs |].
              by constructor.
           ++ eapply Forall_impl; [exact Hf3 |]. intros e. apply from_mapping_cons.
        -- apply Forall_app. split; [| done].
           apply Forall_app. split; [by apply landed_of_mkdirs |].
           constructor; [| done]. eapply landed_mono; [apply He3 | done].
      * intros Hrest.
        destruct (IH _ _ _ Hrest) as (e3 & He3 & Hf3 & Hl3 & Herr).
        exists (e1 ++ e3). split; [by eapply traced_trans |].
        split; [| split; [| done]].
        -- apply Forall_app. split; [by apply from_mapping_of_mkdirs |].
           eapply Forall_impl; [exact Hf3 |]. intros e. apply from_mapping_cons.
        -- apply Forall_app. split; [by apply landed_of_mkdirs | done].
    + intros Hrest.
      destruct (IH _ _ _ Hrest) as (e3 & He3 & Hf3 & Hl3 & Herr).
      exists (e1 ++ e3). split; [by eapply traced_trans |].
      split; [| split; [| done]].
      * apply Forall_app. split; [by apply from_mapping_of_mkdirs |].
        eapply Forall_impl; [exact Hf3 |]. intros e. apply from_mapping_cons.
      * apply Forall_app. split; [by apply landed_of_mkdirs | done].
Qed.

(** The same for the loop of [Item.Save], whose errors are those of the
    system calls themselves. *)
Lemma Save_loop_traced it files w it' err w' :
  Handlers.Save_loop it files w = ((it', err), w') ->
  exists evs, traced evs w w' /\
    Forall (from_mapping (item_file it) files) evs /\
    Forall (landed w') evs.
Proof.
  revert it w it' err w'. induction files as [|[name text] rest IH]; simpl.
  - intros it w it' err w' [= <- <- <-]. exists [].
    split; [apply traced_refl | done].
  - intros it w it' err w'. unfold bind.
    set (file := Handlers.dir it +:+ "/" +:+ Api.ID (Handlers.Problem it) +:+ "/" +:+ name).
    destruct (MkdirAll_traced (Filepath.Dir file) w) as (e1 & He1 & Hm1).
    destruct (OS.MkdirAll _ w) as [[e|] w1]; simpl in *.
    { intros [= <- <- <-]. exists e1. split; [done |].
      split; [by apply from_mapping_of_mkdirs | by apply landed_of_mkdirs]. }
    destruct (Stat_eq file w1) as [n ->].
    destruct (stat_err file w1) as [serr|] eqn:Hst.
    + destruct (OS.IsNotExist serr) eqn:Hne; simpl.
      2:{ intros [= <- <- <-]. exists e1. split; [done |].
          split; [by apply from_mapping_of_mkdirs | by apply landed_of_mkdirs]. }
      destruct (stat_err_NotExist _ _ _ Hst Hne) as [Hnone _].
      destruct (WriteFile_traced file text w1 Hnone) as (He2 & Hl2 & _).
      assert (from_mapping (item_file it) ((name, text) :: rest)
                (EvWriteFile (Filepath.Clean file) text)) as Hfm.
      { exists (name, text). split; [by left | done]. }
      set (it1 := if negb (Handlers.isNew it) then Handlers.set_isUpdated it else it).
      assert (item_file it1 = item_file it) as Hfile
        by (subst it1; by destruct (Handlers.isNew it)).
      destruct (OS.WriteFile _ text w1) as [[e|] w2]; simpl in *.
      { intros [= <- <- <-]. eexists. split; [by eapply traced_trans |].
        split.
        - apply Forall_app. split; [by apply from_mapping_of_mkdirs |].
          by constructor.
        - apply Forall_app. split; [by apply landed_of_mkdirs | by constructor]. }
      intros Hrest.
      destruct (IH _ _ _ _ _ Hrest) as (e3 & He3 & Hf3 & Hl3).
      exists ((e1 ++ [EvWriteFile (Filepath.Clean file) text]) ++ e3).
      split; [eapply traced_trans; [by eapply traced_trans | done] |].
      split.
      * apply Forall_app. split.
        -- apply Forall_app. split; [by apply from_mapping_of_mkdirs |].
           by constructor.
        -- eapply Forall_impl; [exact Hf3 |]. intros e. rewrite Hfile.
           apply from_mapping_cons.
      * apply Forall_app. split; [| done].
        apply Forall_app. split; [by apply landed_of_mkdirs |].
        constructor; [| done]. eapply landed_mono; [apply He3 | done].
    + intros Hrest.
      destruct (IH _ _ _ _ _ Hrest) as (e3 & He3 & Hf3 & Hl3).
      exists (e1 ++ e3). split; [by eapply traced_trans |].
      split.
      * apply Forall_app. split; [by apply from_mapping_of_mkdirs |].
        eapply Forall_impl; [exact Hf3 |]. intros e. apply from_mapping_cons.
      * apply Forall_app. split; [by apply landed_of_mkdirs | done].
Qed.

Lemma SaveAssignment_traced dir a w err w' :
  Main.SaveAssignment dir a w = (err, w') ->
  exists evs,
    traced (evs ++ match err with None => [EvPrint (summary_line a)] | Some _ => [] end)
      w w' /\
    Forall (from_mapping (target (assignment_root dir a)) (Main.Files a)) evs /\
    Forall (landed w') evs /\
    (forall e, err = Some e -> exists msg, e = errorString msg /\
       (String.prefix "Error making directory " msg = true \/
        String.prefix "Error writing file " msg = true)).
Proof.
  unfold Main.SaveAssignment, bind. fold (assignment_root dir a).
  destruct (Main.SaveAssignment_loop _ _ w) as [lerr w1] eqn:Hloop.
  destruct (SaveAssignment_loop_traced _ _ _ _ _ Hloop) as (evs & Ht & Hf & Hl & He).
  destruct lerr as [e|]; simpl.
  - intros [= <- <-]. exists evs. by rewrite app_nil_r.
  - intros [= <- <-]. exists evs. split; [| split; [done | split; [| done]]].
    + eapply traced_trans; [exact Ht | apply traced_emit].
    + eapply Forall_impl; [exact Hl |]. intros e. eapply landed_mono, emit_extends.
Qed.

Lemma Save_traced it w it' err w' :
  Handlers.Save it w = ((it', err), w') ->
  exists evs, traced evs w w' /\
    Forall (from_mapping (item_file it) (Api.Files (Handlers.Problem it))) evs /\
    Forall (landed w') evs.
Proof.
  unfold Handlers.Save, bind.
  destruct (Stat_eq (Handlers.Path it) w) as [n ->].
  destruct (stat_err (Handlers.Path it) w) as [serr|].
  - destruct (OS.IsNotExist serr); simpl.
    + intros Hloop. by apply Save_loop_traced in Hloop.
    + intros [= <- <- <-]. exists []. split; [apply traced_refl | done].
  - apply Save_loop_traced.
Qed.

Lemma from_mapping_silent file_of files evs :
  Forall (from_mapping file_of files) evs -> Forall silent evs.
Proof. intros H. eapply Forall_impl; [exact H |]. by intros []. Qed.

Lemma traced_events evs w w' : traced evs w w' -> events_since w w' = evs.
Proof. intros [He _]. by apply extends_by_events. Qed.

(** X3. [SaveAssignment] reports once and only on success: a nil error
    comes with the summary line as the last thing done and nothing else
    printed; a non-nil error is [Error making directory ...] or
    [Error writing file ...] and nothing is printed at all. *)
Theorem SaveAssignment_report (dir : string) (a : Main.Assignment) (w : World) :
  exists evs, Forall silent evs /\
    events_since w (Main.SaveAssignment dir a w).2 =
      evs ++ match (Main.SaveAssignment dir a w).1 with
             | None => [EvPrint (summary_line a)]
             | Some _ => []
             end /\
    (forall e, (Main.SaveAssignment dir a w).1 = Some e ->
       exists msg, e = errorString msg /\
         (String.prefix "Error making directory " msg = true \/
          String.prefix "Error writing file " msg = true)).
Proof.
  destruct (Main.SaveAssignment dir a w) as [err w'] eqn:Hs.
  destruct (SaveAssignment_traced _ _ _ _ _ Hs) as (evs & Ht & Hf & _ & He).
  exists evs. split; [by eapply from_mapping_silent |].
  split; [by apply traced_events | done].
Qed.

Lemma SaveAssignment_report_witness :
  (Main.SaveAssignment "/ex" demo_assignment readonly_world).1 =
    Some (errorString
            "Error writing file README.md: [open /ex/ruby/bob/README.md: permission denied]") /\
  Forall silent (events_since readonly_world
                   (Main.SaveAssignment "/ex" demo_assignment readonly_world).2).
Proof.
  assert ((Main.SaveAssignment "/ex" demo_assignment readonly_world).1 =
            Some (errorString
              "Error writing file README.md: [open /ex/ruby/bob/README.md: permission denied]"))
    as Herr by (vm_compute; reflexivity).
  split; [exact Herr |].
  destruct (SaveAssignment_report "/ex" demo_assignment readonly_world)
    as (evs & Hs & Hev & _).
  rewrite Hev, Herr, app_nil_r. exact Hs.
Defined.



(** X5. No rollback: every [WriteFile] call that a save makes goes to
    the file of a map entry with that entry's text, and when the path has no
    write fault the text is on disk when the save returns, also when the save
    fails on a later file. *)
Theorem save_writes_are_kept (dir : string) (a : Main.Assignment)
    (it : Handlers.Item) (w : World) (k data : string) :
  (EvWriteFile k data ∈ events_since w (Main.SaveAssignment dir a w).2 ->
   (exists entry, entry ∈ Main.Files a /\
      k = Filepath.Clean (target (assignment_root dir a) entry) /\ data = entry.2) /\
   (writeFault w !! k = None ->
    nodes (Main.SaveAssignment dir a w).2 !! k = Some (File data))) /\
  (EvWriteFile k data ∈ events_since w (Handlers.Save it w).2 ->
   (exists entry, entry ∈ Api.Files (Handlers.Problem it) /\
      k = Filepath.Clean (item_file it entry) /\ data = entry.2) /\
   (writeFault w !! k = None ->
    nodes (Handlers.Save it w).2 !! k = Some (File data))).
Proof.
  split.
  - destruct (Main.SaveAssignment dir a w) as [err w'] eqn:Hs. simpl.
    destruct (SaveAssignment_traced _ _ _ _ _ Hs) as (evs & Ht & Hf & Hl & _).
    rewrite (traced_events _ _ _ Ht). intros Hin.
    assert (EvWriteFile k data ∈ evs) as Hin'.
    { apply elem_of_app in Hin as [? | Hin]; [done |].
      destruct err; [by apply elem_of_nil in Hin |].
      by apply list_elem_of_singleton in Hin. }
    rewrite Forall_forall in Hf, Hl. split; [by apply Hf in Hin' |].
    intros Hw. apply (Hl _ Hin'). destruct Ht as [[] _]. congruence.
  - destruct (Handlers.Save it w) as [[it' err] w'] eqn:Hs. simpl.
    destruct (Save_traced _ _ _ _ _ Hs) as (evs & Ht & Hf & Hl).
    rewrite (traced_events _ _ _ Ht). intros Hin.
    rewrite Forall_forall in Hf, Hl. split; [by apply Hf in Hin |].
    intros Hw. apply (Hl _ Hin). destruct Ht as [[] _]. congruence.
Qed.

Lemma save_writes_are_kept_witness :
  (Main.SaveAssignment "/ex" demo_assignment_reordered
     {| nodes := ∅; statFault := ∅; mkdirFault := ∅;
        writeFault := {[ "/ex/ruby/bob/bob.rb" := FaultEACCES ]}; log := [] |}).1
    <> None /\
  nodes (Main.SaveAssignment "/ex" demo_assignment_reordered
           {| nodes := ∅; statFault := ∅; mkdirFault := ∅;
              writeFault := {[ "/ex/ruby/bob/bob.rb" := FaultEACCES ]}; log := [] |}).2
    !! "/ex/ruby/bob/README.md" = Some (File "readme").
Proof.
  split; [vm_compute; discriminate |].
  apply (save_writes_are_kept "/ex" demo_assignment_reordered
           (NewItem demo_problem "/ex")
           {| nodes := ∅; statFault := ∅; mkdirFault := ∅;
              writeFault := {[ "/ex/ruby/bob/bob.rb" := FaultEACCES ]}; log := [] |}
           "/ex/ruby/bob/README.md" "readme").
  - vm_compute. do 3 right. left.
  - vm_compute. reflexivity.
Defined.

(** X6. After a save that returned nil, every file of the mapping has its
    directory on disk and is itself on disk; for [SaveAssignment] this holds
    of the files whose existence check does not fail, the others having been
    passed over. *)
Theorem save_success_puts_files_in_place (dir : string) (a : Main.Assignment)
    (p : Api.Problem) (w wa wi : World) (it1 : Handlers.Item)
    (entry : string * string) :
  (Main.SaveAssignment dir a w = (None, wa) ->
   entry ∈ Main.Files a ->
   nodes wa !! Filepath.Clean (Filepath.Dir (target (assignment_root dir a) entry))
     = Some Directory /\
   (statFault w !! Filepath.Clean (target (assignment_root dir a) entry) = None ->
    is_Some (nodes wa !! Filepath.Clean (target (assignment_root dir a) entry)))) /\
  (Handlers.Save (NewItem p dir) w = ((it1, None), wi) ->
   entry ∈ Api.Files p ->
   nodes wi !! Filepath.Clean (Filepath.Dir (item_file (NewItem p dir) entry))
     = Some Directory /\
   is_Some (nodes wi !! Filepath.Clean (item_file (NewItem p dir) entry))).
Proof.
  split.
  - intros Hs Hin.
    destruct (SaveAssignment_spec _ _ _ _ _ Hs) as (evs & He & _ & Hall).
    specialize (Hall eq_refl). rewrite Forall_forall in Hall.
    destruct (Hall _ Hin) as [Hd Hset]. split; [done |]. intros Hnf.
    unfold settled in Hset.
    destruct (stat_err (target (assignment_root dir a) entry) wa) as [serr|] eqn:Hst.
    + exfalso. revert Hst Hset. unfold stat_err, OS.Stat.
      destruct He as [-> _ _ _ _]. rewrite Hnf.
      case_match; simpl; [done |]. by intros [= <-].
    + by apply stat_err_None in Hst as [_ ?].
  - intros Hs Hin.
    destruct (Save_spec _ _ _ _ _ Hs) as (evs & _ & _ & _ & _ & _ & _ & _ & Hall).
    destruct (Hall eq_refl) as [_ Hpres]. rewrite Forall_forall in Hpres.
    destruct (Hpres _ Hin) as [Hd Hst]. split; [done |].
    by apply stat_err_None in Hst as [_ ?].
Qed.

Lemma save_success_puts_files_in_place_witness :
  is_Some (nodes (Main.SaveAssignment "/ex" demo_assignment empty_world).2
             !! "/ex/ruby/bob/README.md") /\
  is_Some (nodes (Handlers.Save (NewItem demo_problem "/ex") empty_world).2
             !! "/ex/ruby/bob/README.md").
Proof.
  assert (("README.md", "readme") ∈ [("bob.rb", "remote"); ("README.md", "readme")])
    as Hin by (right; left).
  destruct (save_success_puts_files_in_place "/ex" demo_assignment demo_problem
              empty_world
              (Main.SaveAssignment "/ex" demo_assignment empty_world).2
              (Handlers.Save (NewItem demo_problem "/ex") empty_world).2
              (Handlers.Save (NewItem demo_problem "/ex") empty_world).1.1
              ("README.md", "readme")) as [Ha Hi].
  split.
  - apply Ha; [vm_compute; reflexivity | exact Hin | vm_compute; reflexivity].
  - apply Hi; [vm_compute; reflexivity | exact Hin].
Defined.

(** X7. The flags of an item only ever get set: [Save] keeps [isNew] and
    [isUpdated] when they are set on entry (so an item saved again through the
    same pointer stays new), and on an item not yet marked updated it never
    sets both, so the item never matches both [HWNew] and [HWUpdated]. *)
Theorem Save_flags (it : Handlers.Item) (w : World) :
  let it' := (Handlers.Save it w).1.1 in
  (Handlers.isNew it = true -> Handlers.isNew it' = true) /\
  (Handlers.isUpdated it = true -> Handlers.isUpdated it' = true) /\
  (Handlers.isUpdated it = false ->
   Handlers.Matches it' Handlers.HWNew && Handlers.Matches it' Handlers.HWUpdated = false).
Proof.
  intros it'. subst it'.
  destruct (Handlers.Save it w) as [[it' err] w'] eqn:Hs. simpl.
  destruct (Save_spec _ _ _ _ _ Hs) as (evs & _ & _ & _ & _ & _ & HN & HU & _).
  split; [| split].
  - intros Hn. by rewrite HN, Hn.
  - intros Hu. by rewrite HU, Hu.
  - intros Hu. rewrite HU, Hu. by destruct (Handlers.isNew it').
Qed.

Lemma Save_flags_witness :
  let first := Handlers.Save (NewItem demo_problem "/ex") empty_world in
  let again := Handlers.Save first.1.1 first.2 in
  Handlers.isNew first.1.1 = true /\
  Handlers.isNew again.1.1 = true /\
  Handlers.Matches again.1.1 Handlers.HWUpdated = false.
Proof.
  assert (Handlers.isNew
            (Handlers.Save (NewItem demo_problem "/ex") empty_world).1.1 = true)
    as Hnew by (vm_compute; reflexivity).
  split; [exact Hnew |].
  destruct (Save_flags (Handlers.Save (NewItem demo_problem "/ex") empty_world).1.1
              (Handlers.Save (NewItem demo_problem "/ex") empty_world).2)
    as (Hkeep & _ & Hex).
  specialize (Hkeep Hnew). split; [exact Hkeep |].
  assert (Handlers.isUpdated
            (Handlers.Save (NewItem demo_problem "/ex") empty_world).1.1 = false)
    as Hu by (vm_compute; reflexivity).
  specialize (Hex Hu). simpl in Hex. unfold Handlers.Matches in *.
  rewrite Hkeep in Hex. exact Hex.
Defined.

(** X8. Unlike [SaveAssignment], [Item.Save] gives up on a failing
    existence check: when [os.Stat] of the item directory fails with an error
    other than not-exist, [Save] returns that error and touches nothing; when
    the check of a file fails so, the loop returns that error right after
    making the file's directory, writes nothing and visits no further file. *)
Theorem Save_returns_failed_check (it : Handlers.Item) (w : World)
    (name text : string) (rest : list (string * string)) (f : Fault) :
  (statFault w !! Filepath.Clean (Handlers.Path it) = Some f ->
   Handlers.Save it w =
     ((it, Some (PathError "stat" (Handlers.Path it) (fault_errno f))), w)) /\
  (statFault w !! Filepath.Clean (item_file it (name, text)) = Some f ->
   (OS.MkdirAll (Filepath.Dir (item_file it (name, text))) w).1 = None ->
   (Handlers.Save_loop it ((name, text) :: rest) w).1 =
     (it, Some (PathError "stat" (item_file it (name, text)) (fault_errno f))) /\
   (Handlers.Save_loop it ((name, text) :: rest) w).2 =
     (OS.MkdirAll (Filepath.Dir (item_file it (name, text))) w).2).
Proof.
  split.
  - intros Hf. unfold Handlers.Save, bind.
    destruct (Stat_eq (Handlers.Path it) w) as [n ->].
    apply stat_err_fault in Hf as [-> ->]. done.
  - intros Hf Hok. simpl. unfold bind, item_file in *. simpl in *.
    destruct (MkdirAll_spec (Filepath.Dir (Handlers.dir it +:+ "/"
                +:+ Api.ID (Handlers.Problem it) +:+ "/" +:+ name)) w)
      as (e1 & He1 & _).
    destruct (OS.MkdirAll _ w) as [[e|] w1]; simpl in *; [done |].
    destruct (Stat_eq (Handlers.dir it +:+ "/" +:+ Api.ID (Handlers.Problem it)
                       +:+ "/" +:+ name) w1) as [n ->].
    assert (statFault w1 !! Filepath.Clean (Handlers.dir it +:+ "/"
              +:+ Api.ID (Handlers.Problem it) +:+ "/" +:+ name) = Some f) as Hf1
      by (destruct He1; congruence).
    apply stat_err_fault in Hf1 as [-> ->]. done.
Qed.

Lemma Save_returns_failed_check_witness :
  Handlers.Save (NewItem demo_problem "/ex") locked_world =
    ((NewItem demo_problem "/ex",
      Some (PathError "stat" "/ex/ruby/bob" EACCES)), locked_world) /\
  (Handlers.Save (NewItem demo_problem "/ex") guarded_world).1.2 =
    Some (PathError "stat" "/ex/ruby/bob/bob.rb" EACCES).
Proof.
  split.
  - apply (Save_returns_failed_check (NewItem demo_problem "/ex") locked_world
             "" "" [] FaultEACCES).
    vm_compute. reflexivity.
  - destruct (Save_returns_failed_check (NewItem demo_problem "/ex") guarded_world
                "bob.rb" "remote" [("README.md", "readme")] FaultEACCES) as [_ H].
    destruct H as [H _]; [vm_compute; reflexivity | vm_compute; reflexivity |].
    change (Handlers.Save (NewItem demo_problem "/ex") guarded_world) with
      (Handlers.Save_loop (NewItem demo_problem "/ex")
         [("bob.rb", "remote"); ("README.md", "readme")] guarded_world).
    by rewrite H.
Defined.

(** ** The two save functions side by side *)

Lemma stat_err_without_fault path w err :
  statFault w !! Filepath.Clean path = None ->
  stat_err path w = Some err -> OS.IsNotExist err = true.
Proof.
  intros Hf. unfold stat_err, OS.Stat. rewrite Hf.
  case_match; simpl; [done |]. by intros [= <-].
Qed.

Lemma save_loops_agree files it w root :
  statFault w = ∅ ->
  root = Handlers.dir it +:+ "/" +:+ Api.ID (Handlers.Problem it) ->
  (Handlers.Save_loop it files w).2 = (Main.SaveAssignment_loop root files w).2 /\
  ((Handlers.Save_loop it files w).1.2 = None <->
   (Main.SaveAssignment_loop root files w).1 = None).
Proof.
  revert it w. induction files as [|[name text] rest IH]; intros it w Hnf Hroot.
  - done.
  - simpl. unfold bind.
    assert (root +:+ "/" +:+ name =
            Handlers.dir it +:+ "/" +:+ Api.ID (Handlers.Problem it) +:+ "/" +:+ name)
      as -> by (rewrite Hroot; by rewrite !str_app_assoc).
    set (file := Handlers.dir it +:+ "/" +:+ Api.ID (Handlers.Problem it) +:+ "/" +:+ name).
    destruct (MkdirAll_spec (Filepath.Dir file) w) as (e1 & He1 & _).
    destruct (OS.MkdirAll (Filepath.Dir file) w) as [[e|] w1]; simpl in *; [done |].
    assert (statFault w1 = ∅) as Hnf1 by (destruct He1; congruence).
    destruct (Stat_eq file w1) as [n ->].
    destruct (stat_err file w1) as [serr|] eqn:Hst.
    + rewrite (stat_err_without_fault file w1 serr); [| by rewrite Hnf1 | done].
      simpl.
      destruct (stat_err_NotExist _ _ _ Hst
                  (stat_err_without_fault file w1 serr ltac:(by rewrite Hnf1) Hst))
        as [Hnone _].
      destruct (WriteFile_spec file text w1 Hnone) as [He2 _].
      destruct (OS.WriteFile file text w1) as [[e|] w2]; simpl in *; [done |].
      apply IH; [destruct He2; congruence |].
      by destruct (Handlers.isNew it).
    + by apply IH.
Qed.

(** X9. Where no existence check fails, [Item.Save] and [SaveAssignment]
    do the same to the disk: for a problem whose ID is the assignment's
    [track/slug] and whose files are visited in the same order, both create
    the same directories and write the same files in the same order, leave
    the same tree, and fail or succeed together; [SaveAssignment] only adds
    its summary line on success. *)
Theorem Save_agrees_with_SaveAssignment (dir : string) (a : Main.Assignment)
    (p : Api.Problem) (w : World) :
  statFault w = ∅ ->
  Api.ID p = Main.Track a +:+ "/" +:+ Main.Slug a ->
  Api.Files p = Main.Files a ->
  nodes (Handlers.Save (NewItem p dir) w).2 = nodes (Main.SaveAssignment dir a w).2 /\
  ((Handlers.Save (NewItem p dir) w).1.2 = None <->
   (Main.SaveAssignment dir a w).1 = None) /\
  events_since w (Main.SaveAssignment dir a w).2 =
    events_since w (Handlers.Save (NewItem p dir) w).2 ++
    match (Main.SaveAssignment dir a w).1 with
    | None => [EvPrint (summary_line a)]
    | Some _ => []
    end.
Proof.
  intros Hnf Hid Hfiles.
  assert (exists it, Handlers.dir it = dir /\ Handlers.Problem it = p /\
            Handlers.Save (NewItem p dir) w = Handlers.Save_loop it (Api.Files p) w)
    as (it & Hd & Hp & ->).
  { unfold Handlers.Save, bind.
    destruct (Stat_eq (Handlers.Path (NewItem p dir)) w) as [n ->].
    destruct (stat_err (Handlers.Path (NewItem p dir)) w) as [serr|] eqn:Hst.
    - rewrite (stat_err_without_fault (Handlers.Path (NewItem p dir)) w serr);
        [| by rewrite Hnf | done].
      simpl. by exists (Handlers.set_isNew (NewItem p dir)).
    - by exists (NewItem p dir). }
  destruct (save_loops_agree (Api.Files p) it w (assignment_root dir a) Hnf)
    as [Hw Herr].
  { unfold assignment_root. by rewrite Hd, Hp, Hid. }
  unfold Main.SaveAssignment, bind. fold (assignment_root dir a).
  rewrite <- Hfiles.
  destruct (Main.SaveAssignment_loop (assignment_root dir a) (Api.Files p) w)
    as [lerr w1] eqn:Hloop.
  simpl in Hw, Herr. rewrite Hw.
  destruct (SaveAssignment_loop_spec _ _ _ _ _ Hloop) as (evs & He & _).
  destruct lerr as [e|]; simpl.
  - split; [done |]. split; [by rewrite Herr |]. by rewrite app_nil_r.
  - split; [done |]. split; [by rewrite Herr |].
    rewrite (extends_by_events _ _ _ He).
    apply extends_by_events. eapply extends_by_trans; [exact He | apply emit_extends].
Qed.

Lemma Save_agrees_with_SaveAssignment_witness :
  nodes (Handlers.Save (NewItem demo_problem "/ex") demo_world).2 =
    nodes (Main.SaveAssignment "/ex" demo_assignment demo_world).2 /\
  nodes (Handlers.Save (NewItem demo_problem "/ex") readonly_world).2 =
    nodes (Main.SaveAssignment "/ex" demo_assignment readonly_world).2.
Proof.
  split.
  - apply (Save_agrees_with_SaveAssignment "/ex" demo_assignment demo_problem
             demo_world); reflexivity.
  - apply (Save_agrees_with_SaveAssignment "/ex" demo_assignment demo_problem
             readonly_world); reflexivity.
Defined.

(** ** The exchanges with the service *)

(** The error of [UnsubmitAssignment] once the request has gone out and the
    body has been read. *)
Lemma UnsubmitAssignment_answer env c w resp body :
  let url := Config.Hostname c +:+ "/" +:+ "api/v1/user/assignments" +:+ "?key="
               +:+ Config.APIKey c in
  let req := Header_Set "User-Agent" (Main.UserAgent env)
               {| Method := "DELETE"; URL := url; Header := ∅; Body := None |} in
  Main.NewRequest_error env "DELETE" url = None ->
  Main.Do env req = inl resp ->
  ReadAll resp = (body, None) ->
  Main.UnsubmitAssignment env c w =
    (if StatusCode resp =? 204 then None
     else match Main.Unmarshal_unsubmitError env body with
          | inl msg => Some (errorString ("Status: " +:+ pretty (StatusCode resp)
                                          +:+ ", Error: " +:+ msg))
          | inr e => Some e
          end,
     (emit (EvRequest req) w).2).
Proof.
  intros url req Hnew Hdo Hread.
  unfold Main.UnsubmitAssignment, Main.NewRequest, Main.DefaultClient_Do, bind.
  simpl. fold url. rewrite Hnew. simpl. fold req. rewrite Hdo, Hread.
  destruct (StatusCode resp =? 204); [done |]. simpl.
  by destruct (Main.Unmarshal_unsubmitError env body).
Qed.

(** X10. Unsubmit status mapping: once the DELETE request has gone out and
    the body has been read, status 204 returns a nil error without looking
    at the body; any other status returns an error, which is
    [Status: <code>, Error: <message>] for a body that parses and the bare
    decoding error for one that does not. *)
Theorem UnsubmitAssignment_status_mapping (env : Main.Env) (c : Config.Config)
    (w : World) (resp : Response) (body : string) :
  let url := Config.Hostname c +:+ "/" +:+ "api/v1/user/assignments" +:+ "?key="
               +:+ Config.APIKey c in
  let req := Header_Set "User-Agent" (Main.UserAgent env)
               {| Method := "DELETE"; URL := url; Header := ∅; Body := None |} in
  Main.NewRequest_error env "DELETE" url = None ->
  Main.Do env req = inl resp ->
  ReadAll resp = (body, None) ->
  let err := (Main.UnsubmitAssignment env c w).1 in
  (StatusCode resp = 204 -> err = None) /\
  (StatusCode resp <> 204 ->
     is_Some err /\
     (forall msg, Main.Unmarshal_unsubmitError env body = inl msg ->
        err = Some (errorString ("Status: " +:+ pretty (StatusCode resp)
                                 +:+ ", Error: " +:+ msg))) /\
     (forall e, Main.Unmarshal_unsubmitError env body = inr e -> err = Some e)).
Proof.
  intros url req Hnew Hdo Hread err. subst err.
  rewrite (UnsubmitAssignment_answer env c w resp body Hnew Hdo Hread). simpl.
  split.
  - by intros ->.
  - intros Hne. apply Z.eqb_neq in Hne. rewrite Hne.
    destruct (Main.Unmarshal_unsubmitError env body) as [msg | e].
    + split; [by eexists |]. split; [by intros ? [= <-] | done].
    + split; [by eexists |]. split; [done | by intros ? [= <-]].
Qed.

Lemma UnsubmitAssignment_status_mapping_witness :
  (Main.UnsubmitAssignment (demo_env reply_no_content) demo_config empty_world).1
    = None /\
  (Main.UnsubmitAssignment (demo_env reply_not_found) demo_config empty_world).1
    = Some (errorString "Status: 404, Error: not found").
Proof.
  split.
  - apply (UnsubmitAssignment_status_mapping (demo_env reply_no_content) demo_config
             empty_world {| StatusCode := 204; ReadAll := ("", None) |} "");
      reflexivity.
  - destruct (UnsubmitAssignment_status_mapping (demo_env reply_not_found)
                demo_config empty_world
                {| StatusCode := 404;
                   ReadAll := ("{" +:+ FlatJSON.quoted "Error" +:+ ":"
                               +:+ FlatJSON.quoted "not found" +:+ "}", None) |}
                ("{" +:+ FlatJSON.quoted "Error" +:+ ":"
                 +:+ FlatJSON.quoted "not found" +:+ "}")
                (reflexivity _) (reflexivity _) (reflexivity _)) as [_ H].
    destruct H as (_ & H & _); [discriminate |].
    apply (H "not found"). vm_compute. reflexivity.
Defined.

(** X11. What [FetchAssignments] returns: never assignments together with
    an error; a nil error exactly when the request could be built, the
    service answered with status 200 and the body decoded, and then the
    decoded assignments; for any other status with a body that parses, the
    error names the status code and carries the service's message. *)
Theorem FetchAssignments_outcome (env : Main.Env) (c : Config.Config)
    (path : string) (w : World) :
  let url := Config.Hostname c +:+ path +:+ "?key=" +:+ Config.APIKey c in
  let req := {| Method := "GET"; URL := url; Header := ∅; Body := None |} in
  let result := (Main.FetchAssignments env c path w).1 in
  (is_Some result.2 -> result.1 = []) /\
  (result.2 = None <->
     Main.NewRequest_error env "GET" url = None /\
     exists resp body,
       Main.Do env req = inl resp /\ ReadAll resp = (body, None) /\
       StatusCode resp = 200 /\
       Main.Unmarshal_assignments env body = inl result.1) /\
  (forall resp body msg,
     Main.NewRequest_error env "GET" url = None ->
     Main.Do env req = inl resp -> ReadAll resp = (body, None) ->
     StatusCode resp <> 200 ->
     Main.Unmarshal_apiError env body = inl msg ->
     result.2 = Some (errorString
                        ("Error fetching assignments. HTTP Status Code: "
                         +:+ pretty (StatusCode resp) +:+ newline +:+ msg))).
Proof.
  intros url req result. subst result.
  unfold Main.FetchAssignments, Main.NewRequest, Main.DefaultClient_Do, bind.
  simpl. fold url.
  destruct (Main.NewRequest_error env "GET" url) as [nerr|] eqn:Hnew; simpl.
  { split; [done |]. split; [| done]. split; [done | by intros [? _]]. }
  fold req.
  destruct (Main.Do env req) as [resp | derr] eqn:Hdo; simpl.
  - destruct (ReadAll resp) as [body [rerr|]] eqn:Hread; simpl.
    { split; [done |]. split; [| by intros ? ? ? _ [= <-]; rewrite Hread].
      split; [done |]. intros [_ (resp' & body' & [= <-] & Hr & _)].
      by rewrite Hread in Hr. }
    destruct (StatusCode resp =? 200) eqn:Hcode; simpl.
    + apply Z.eqb_eq in Hcode.
      destruct (Main.Unmarshal_assignments env body) as [assignments | uerr] eqn:Hu;
        simpl.
      * split; [by intros [? ?] |].
        split; [| by intros ? ? ? _ [= <-]].
        split; [| done]. intros _. split; [done |]. by exists resp, body.
      * split; [done |]. split; [| by intros ? ? ? _ [= <-]].
        split; [done |].
        intros [_ (resp' & body' & [= <-] & Hr & _ & Hu')].
        rewrite Hread in Hr. injection Hr as <-. by rewrite Hu in Hu'.
    + apply Z.eqb_neq in Hcode.
      destruct (Main.Unmarshal_apiError env body) as [apiError | uerr] eqn:Hu; simpl.
      * split; [done |]. split.
        -- split; [done |]. by intros [_ (resp' & body' & [= <-] & _ & ? & _)].
        -- intros resp' body' msg _ [= <-] Hr _ Hu'.
           rewrite Hread in Hr. injection Hr as <-. rewrite Hu in Hu'.
           by injection Hu' as <-.
      * split; [done |]. split.
        -- split; [done |]. by intros [_ (resp' & body' & [= <-] & _ & ? & _)].
        -- intros resp' body' msg _ [= <-] Hr _ Hu'.
           rewrite Hread in Hr. injection Hr as <-. by rewrite Hu in Hu'.
  - split; [done |]. split; [| by intros ? ? ? _ ?].
    split; [done |]. by intros [_ (? & ? & ? & _)].
Qed.

Lemma FetchAssignments_outcome_witness :
  (Main.FetchAssignments (fetch_env reply_ok) demo_config
     "/api/v1/user/assignments/current" empty_world).1 = ([demo_assignment], None) /\
  (Main.FetchAssignments (fetch_env reply_unauthorized) demo_config
     "/api/v1/user/assignments/current" empty_world).1.2 =
    Some (errorString ("Error fetching assignments. HTTP Status Code: 401"
                       +:+ newline +:+ "unknown key")).
Proof.
  split; [vm_compute; reflexivity |].
  destruct (FetchAssignments_outcome (fetch_env reply_unauthorized) demo_config
              "/api/v1/user/assignments/current" empty_world) as (_ & _ & H).
  apply (H {| StatusCode := 401;
              ReadAll := ("{" +:+ FlatJSON.quoted "error" +:+ ":"
                          +:+ FlatJSON.quoted "unknown key" +:+ "}", None) |}
           ("{" +:+ FlatJSON.quoted "error" +:+ ":"
            +:+ FlatJSON.quoted "unknown key" +:+ "}"));
    [reflexivity | reflexivity | reflexivity | discriminate | vm_compute; reflexivity].
Defined.

(** The world after an exchange: untouched, or one request further. *)
Lemma FetchAssignments_world env c path w :
  (Main.FetchAssignments env c path w).2 = w \/
  exists req, (Main.FetchAssignments env c path w).2 = (emit (EvRequest req) w).2.
Proof.
  unfold Main.FetchAssignments, Main.NewRequest, Main.DefaultClient_Do, bind.
  simpl. destruct (Main.NewRequest_error env "GET" _); simpl; [by left |].
  right. eexists. destruct (Main.Do env _) as [resp | err]; simpl; [| done].
  destruct (ReadAll resp) as [body [err|]]; simpl; [done |].
  destruct (negb _); [destruct (Main.Unmarshal_apiError env body)
                     | destruct (Main.Unmarshal_assignments env body)]; done.
Qed.

Lemma UnsubmitAssignment_world env c w :
  (Main.UnsubmitAssignment env c w).2 = w \/
  exists req, (Main.UnsubmitAssignment env c w).2 = (emit (EvRequest req) w).2.
Proof.
  unfold Main.UnsubmitAssignment, Main.NewRequest, Main.DefaultClient_Do, bind.
  simpl. destruct (Main.NewRequest_error env "DELETE" _); simpl; [by left |].
  right. eexists. destruct (Main.Do env _) as [resp | err]; simpl; [| done].
  destruct (ReadAll resp) as [body [err|]]; simpl; [done |].
  destruct (negb _); [destruct (Main.Unmarshal_unsubmitError env body) |]; done.
Qed.

Lemma SubmitAssignment_world env c filePath code w :
  (Main.SubmitAssignment env c filePath code w).2 = w \/
  exists req,
    (Main.SubmitAssignment env c filePath code w).2 = (emit (EvRequest req) w).2.
Proof.
  unfold Main.SubmitAssignment, Main.NewRequest, Main.DefaultClient_Do, bind.
  simpl. destruct (Main.Marshal_submitRequest env _) as [json [err|]]; simpl;
    [by left |].
  destruct (Main.NewRequest_error env "POST" _); simpl; [by left |].
  right. eexists. destruct (Main.Do env _) as [resp | err]; simpl; [| done].
  destruct (ReadAll resp) as [body [err|]]; simpl; [done |].
  destruct (negb _); destruct (Main.Unmarshal_submitResponse env body); done.
Qed.

(** A world that is [w] or [w] after one request. *)
Lemma one_request_further w w' :
  w' = w \/ (exists req, w' = (emit (EvRequest req) w).2) ->
  exists reqs, extends_by reqs w w' /\ nodes w' = nodes w /\
    (length reqs <= 1)%nat /\ Forall (fun e => is_request e = true) reqs.
Proof.
  intros [-> | [req ->]].
  - exists []. split; [apply extends_by_refl |].
    split; [done |]. split; [simpl; lia | constructor].
  - exists [EvRequest req]. split; [apply emit_extends |].
    split; [done |]. split; [simpl; lia |]. by repeat constructor.
Qed.

(** X12. The three exchanges only talk to the service: each leaves the file
    tree as it found it, prints nothing, and sends at most one request. *)
Theorem exchanges_only_send (env : Main.Env) (c : Config.Config)
    (path filePath code : string) (w : World) :
  Forall (fun w' =>
            nodes w' = nodes w /\
            (length (events_since w w') <= 1)%nat /\
            request_count (events_since w w') = length (events_since w w'))
    [(Main.FetchAssignments env c path w).2;
     (Main.UnsubmitAssignment env c w).2;
     (Main.SubmitAssignment env c filePath code w).2].
Proof.
  assert (forall w', w' = w \/ (exists req, w' = (emit (EvRequest req) w).2) ->
            nodes w' = nodes w /\
            (length (events_since w w') <= 1)%nat /\
            request_count (events_since w w') = length (events_since w w')) as H.
  { intros w' [-> | [req ->]].
    - rewrite events_since_refl. by repeat split; simpl; try lia.
    - rewrite events_since_emit. by repeat split; simpl; try lia. }
  constructor; [apply H, FetchAssignments_world |].
  constructor; [apply H, UnsubmitAssignment_world |].
  constructor; [apply H, SubmitAssignment_world | constructor].
Qed.

(** The submission never comes back empty-handed: a nil error comes with a
    response. *)
Lemma SubmitAssignment_result env c filePath code w :
  (Main.SubmitAssignment env c filePath code w).1.2 = None ->
  is_Some (Main.SubmitAssignment env c filePath code w).1.1.
Proof.
  unfold Main.SubmitAssignment, Main.NewRequest, Main.DefaultClient_Do, bind.
  simpl. destruct (Main.Marshal_submitRequest env _) as [json [err|]]; simpl;
    [done |].
  destruct (Main.NewRequest_error env "POST" _); simpl; [done |].
  destruct (Main.Do env _) as [resp | err]; simpl; [| done].
  destruct (ReadAll resp) as [body [err|]]; simpl; [done |].
  destruct (negb _); destruct (Main.Unmarshal_submitResponse env body); simpl;
    done.
Qed.

Lemma Println_one s : Println [s] = emit (EvPrint (s +:+ newline)).
Proof. reflexivity. Qed.

(** ** The submit and unsubmit actions from end to end *)

(** X13. The checks the actions make before anything else: [submit]
    without an argument asks for a file name whatever the configuration is; a
    configuration that cannot be read has its error printed; an
    unauthenticated user is told to configure a key.  In each case that line
    is all that happens: no request is sent. *)
Theorem actions_refuse_before_any_request (env : Main.Env) (ctx : Main.Context)
    (w : World) :
  (Main.Args ctx = [] ->
   events_since w (Main.submitAction env ctx w).2 =
     [EvPrint ("Please enter a file name" +:+ newline)]) /\
  (forall c err,
     Main.config_Read env (Main.GlobalString_config ctx) = (c, Some err) ->
     events_since w (Main.unsubmitAction env ctx w).2 =
       [EvPrint (error_Error err +:+ newline)] /\
     (Main.Args ctx <> [] ->
      events_since w (Main.submitAction env ctx w).2 =
        [EvPrint (error_Error err +:+ newline)])) /\
  (forall c,
     Main.config_Read env (Main.GlobalString_config ctx) = (c, None) ->
     Main.IsAuthenticated env c = false ->
     events_since w (Main.unsubmitAction env ctx w).2 =
       [EvPrint (Main.msgPleaseAuthenticate +:+ newline)] /\
     (Main.Args ctx <> [] ->
      events_since w (Main.submitAction env ctx w).2 =
        [EvPrint (Main.msgPleaseAuthenticate +:+ newline)])).
Proof.
  unfold Main.submitAction, Main.unsubmitAction.
  split; [| split].
  - intros ->. rewrite Println_one. apply events_since_emit.
  - intros c err ->. rewrite !Println_one.
    split; [apply events_since_emit |].
    destruct (Main.Args ctx); [done |]. intros _. apply events_since_emit.
  - intros c -> ->. simpl. rewrite !Println_one.
    split; [apply events_since_emit |].
    destruct (Main.Args ctx); [done |]. intros _. apply events_since_emit.
Qed.

Lemma actions_refuse_before_any_request_witness :
  events_since submit_world
    (Main.unsubmitAction (anonymous_env reply_no_content)
       (submit_ctx "/ex/python/bob/bob.py") submit_world).2 =
    [EvPrint (Main.msgPleaseAuthenticate +:+ newline)] /\
  events_since submit_world
    (Main.submitAction (anonymous_env reply_created)
       (submit_ctx "/ex/python/bob/bob.py") submit_world).2 =
    [EvPrint (Main.msgPleaseAuthenticate +:+ newline)].
Proof.
  split.
  - destruct (actions_refuse_before_any_request (anonymous_env reply_no_content)
                (submit_ctx "/ex/python/bob/bob.py") submit_world) as (_ & _ & H).
    destruct (H {| Config.Hostname := "http://exercism.io"; Config.APIKey := "";
                   Config.Dir := "/ex" |} (reflexivity _) (reflexivity _)) as [H1 _].
    exact H1.
  - destruct (actions_refuse_before_any_request (anonymous_env reply_created)
                (submit_ctx "/ex/python/bob/bob.py") submit_world) as (_ & _ & H).
    destruct (H {| Config.Hostname := "http://exercism.io"; Config.APIKey := "";
                   Config.Dir := "/ex" |} (reflexivity _) (reflexivity _)) as [_ H2].
    apply H2. discriminate.
Defined.

Lemma ReadFile_world filename w : (Main.ReadFile filename w).2 = w.
Proof. unfold Main.ReadFile. by repeat case_match. Qed.

(** X14. A submission that cannot be read: when the path does not resolve,
    the action prints [Couldn't find <argument>: <error>] with the argument
    as the user typed it; when the resolved path is a directory inside the
    project, it prints [Error reading <path>: read <path>: is a directory].
    Nothing is sent in either case. *)
Theorem submit_unreadable (env : Main.Env) (ctx : Main.Context)
    (filename : string) (rest : list string) (c : Config.Config) (w : World) :
  Main.Args ctx = filename :: rest ->
  Main.config_Read env (Main.GlobalString_config ctx) = (c, None) ->
  Main.IsAuthenticated env c = true ->
  let exDir := Config.Dir c +:+ String (Main.Separator env) "" in
  (forall p err,
     (Main.absolutePath env filename w).1 = (p, Some err) ->
     events_since w (Main.submitAction env ctx w).2 =
       [EvPrint ("Couldn't find " +:+ filename +:+ ": " +:+ error_Error err
                 +:+ newline)]) /\
  (forall absPath,
     (Main.absolutePath env filename w).1 = (absPath, None) ->
     Strings.HasPrefix absPath exDir = true ->
     Main.IsTest (Strings.slice_from (String.length exDir) absPath) = false ->
     nodes w !! Filepath.Clean absPath = Some Directory ->
     events_since w (Main.submitAction env ctx w).2 =
       [EvPrint ("Error reading " +:+ absPath +:+ ": read " +:+ absPath
                 +:+ ": is a directory" +:+ newline)]).
Proof.
  intros Hargs Hcfg Hauth exDir. split.
  - intros p err Habs. unfold Main.submitAction.
    rewrite Hargs, Hcfg, Hauth. simpl. unfold bind at 1.
    pose proof (absolutePath_world env filename w) as Hw.
    destruct (Main.absolutePath env filename w) as [[p' e] w'].
    simpl in *. subst w'. injection Habs as -> ->.
    unfold Printf. apply events_since_emit.
  - intros absPath Habs Hpre Htest Hdir.
    rewrite (submitAction_resolved _ _ _ _ _ _ _ Hargs Hcfg Hauth Habs).
    cbv zeta. fold exDir. rewrite Hpre, Htest. unfold negb, bind at 1.
    unfold Main.ReadFile. rewrite Hdir. unfold Printf.
    rewrite events_since_emit. unfold error_Error, errno_message.
    by rewrite !str_app_assoc.
Qed.

Lemma submit_unreadable_witness :
  (exists err, OS.IsNotExist err = true /\
     events_since submit_world
       (Main.submitAction (demo_env reply_created) (submit_ctx "/ex/python/bob/bob.rb")
          submit_world).2 =
     [EvPrint ("Couldn't find /ex/python/bob/bob.rb: " +:+ error_Error err
               +:+ newline)]) /\
  events_since submit_world
    (Main.submitAction (demo_env reply_created) (submit_ctx "/ex/python/bob")
       submit_world).2 =
    [EvPrint ("Error reading /ex/python/bob: read /ex/python/bob: is a directory"
              +:+ newline)].
Proof.
  split.
  - exists (PathError "stat" "/ex/python/bob/bob.rb" ENOENT). split; [reflexivity |].
    destruct (submit_unreadable (demo_env reply_created)
                (submit_ctx "/ex/python/bob/bob.rb") "/ex/python/bob/bob.rb" []
                demo_config submit_world (reflexivity _) (reflexivity _) (reflexivity _))
      as [H _].
    apply (H ""). vm_compute. reflexivity.
  - destruct (submit_unreadable (demo_env reply_created)
                (submit_ctx "/ex/python/bob") "/ex/python/bob" []
                demo_config submit_world (reflexivity _) (reflexivity _) (reflexivity _))
      as [_ H].
    apply (H "/ex/python/bob"); vm_compute; reflexivity.
Defined.

Lemma SubmitAssignment_sent env c filePath code w json :
  Main.Marshal_submitRequest env
    {| Main.Key := Config.APIKey c; Main.Code := code; Main.Path := filePath |}
    = (json, None) ->
  Main.NewRequest_error env "POST"
    (Config.Hostname c +:+ "/" +:+ "api/v1/user/assignments") = None ->
  (Main.SubmitAssignment env c filePath code w).2 =
    (emit (EvRequest (submit_request env c json)) w).2.
Proof.
  intros Hjson Hnew.
  unfold Main.SubmitAssignment, Main.NewRequest, Main.DefaultClient_Do, bind,
    submit_request.
  simpl. rewrite Hjson. simpl. rewrite Hnew. simpl.
  destruct (Main.Do env _) as [resp | err]; simpl; [| done].
  destruct (ReadAll resp) as [body [err|]]; simpl; [done |].
  destruct (negb _); destruct (Main.Unmarshal_submitResponse env body); done.
Qed.

(** X15. A submission from end to end: for a readable solution inside the
    project whose request goes out and whose answer parses, the action sends
    exactly one POST, with the path relative to the project directory, and
    then prints one line: on status 201 the feedback address
    [<Hostname>/submissions/<ID>], on any other status
    [There was an issue with your submission: Status: <code>, Error: ...].
    The file tree is left as it was. *)
Theorem submit_end_to_end (env : Main.Env) (ctx : Main.Context)
    (filename : string) (rest : list string) (c : Config.Config)
    (rel code json body : string) (resp : Response) (r : Main.submitResponse)
    (w : World) :
  let exDir := Config.Dir c +:+ String (Main.Separator env) "" in
  let absPath := exDir +:+ rel in
  Main.Args ctx = filename :: rest ->
  Main.config_Read env (Main.GlobalString_config ctx) = (c, None) ->
  Main.IsAuthenticated env c = true ->
  (Main.absolutePath env filename w).1 = (absPath, None) ->
  Main.IsTest rel = false ->
  nodes w !! Filepath.Clean absPath = Some (File code) ->
  Main.Marshal_submitRequest env
    {| Main.Key := Config.APIKey c; Main.Code := code; Main.Path := rel |}
    = (json, None) ->
  Main.NewRequest_error env "POST"
    (Config.Hostname c +:+ "/" +:+ "api/v1/user/assignments") = None ->
  Main.Do env (submit_request env c json) = inl resp ->
  ReadAll resp = (body, None) ->
  Main.Unmarshal_submitResponse env body = inl r ->
  events_since w (Main.submitAction env ctx w).2 =
    [EvRequest (submit_request env c json);
     EvPrint (if StatusCode resp =? 201 then
                "For feedback on your submission visit " +:+ Config.Hostname c
                  +:+ "/submissions/" +:+ Main.ID r +:+ newline
              else
                "There was an issue with your submission: Status: "
                  +:+ pretty (StatusCode resp) +:+ ", Error: "
                  +:+ Main.submitResponse_v r +:+ newline)] /\
  nodes (Main.submitAction env ctx w).2 = nodes w.
Proof.
  intros exDir absPath Hargs Hcfg Hauth Habs Htest Hfile Hjson Hnew Hdo Hread Hparse.
  set (line := if StatusCode resp =? 201 then _ else _).
  assert ((Main.submitAction env ctx w).2 =
          (emit (EvPrint line)
             (emit (EvRequest (submit_request env c json)) w).2).2) as ->.
  { rewrite (submitAction_resolved _ _ _ _ _ _ _ Hargs Hcfg Hauth Habs).
    cbv zeta. subst absPath exDir.
    rewrite HasPrefix_app, slice_from_app, Htest. unfold negb.
    unfold bind at 1. unfold Main.ReadFile. rewrite Hfile. unfold bind.
    pose proof (SubmitAssignment_answer env c rel code w json resp body
                  Hjson Hnew Hdo Hread) as Hans.
    pose proof (SubmitAssignment_sent env c rel code w json Hjson Hnew) as Hsent.
    destruct (Main.SubmitAssignment env c rel code w) as [result w1].
    simpl in Hans, Hsent. subst w1 result line. rewrite Hparse.
    destruct (StatusCode resp =? 201); unfold Main.submitReport, Printf;
      [done |].
    unfold error_Error. by rewrite !str_app_assoc. }
  split; [| done]. apply extends_by_events.
  eapply (extends_by_trans [_] [_]); apply emit_extends.
Qed.

Lemma submit_end_to_end_witness :
  events_since submit_world
    (Main.submitAction (demo_env reply_created) (submit_ctx "python/bob/bob.py")
       submit_world).2 =
    [EvRequest (submit_request (demo_env reply_created) demo_config
                  (FlatJSON.submitRequest
                     {| Main.Key := "abc123"; Main.Code := "def hey(): pass";
                        Main.Path := "python/bob/bob.py" |}).1);
     EvPrint ("For feedback on your submission visit http://exercism.io/submissions/42"
              +:+ newline)] /\
  events_since submit_world
    (Main.submitAction (demo_env reply_unprocessable)
       (submit_ctx "/ex/python/bob/../bob/bob.py") submit_world).2 =
    [EvRequest (submit_request (demo_env reply_unprocessable) demo_config
                  (FlatJSON.submitRequest
                     {| Main.Key := "abc123"; Main.Code := "def hey(): pass";
                        Main.Path := "python/bob/bob.py" |}).1);
     EvPrint ("There was an issue with your submission: "
              +:+ "Status: 422, Error: {     bad file}" +:+ newline)].
Proof.
  split.
  - refine (proj1 (submit_end_to_end (demo_env reply_created)
                     (submit_ctx "python/bob/bob.py") "python/bob/bob.py" []
                     demo_config "python/bob/bob.py" "def hey(): pass"
                     (FlatJSON.submitRequest
                        {| Main.Key := "abc123"; Main.Code := "def hey(): pass";
                           Main.Path := "python/bob/bob.py" |}).1
                     _ {| StatusCode := 201; ReadAll := (_, None) |}
                     {| Main.ID := "42"; Main.Status := "ok"; Main.Language := "";
                        Main.Exercise := ""; Main.SubmissionPath := "";
                        Main.Error := "" |}
                     submit_world _ _ _ _ _ _ _ _ _ _ _));
      vm_compute; reflexivity.
  - refine (proj1 (submit_end_to_end (demo_env reply_unprocessable)
                     (submit_ctx "/ex/python/bob/../bob/bob.py")
                     "/ex/python/bob/../bob/bob.py" []
                     demo_config "python/bob/bob.py" "def hey(): pass"
                     (FlatJSON.submitRequest
                        {| Main.Key := "abc123"; Main.Code := "def hey(): pass";
                           Main.Path := "python/bob/bob.py" |}).1
                     _ {| StatusCode := 422; ReadAll := (_, None) |}
                     {| Main.ID := ""; Main.Status := ""; Main.Language := "";
                        Main.Exercise := ""; Main.SubmissionPath := "";
                        Main.Error := "bad file" |}
                     submit_world _ _ _ _ _ _ _ _ _ _ _));
      vm_compute; reflexivity.
Defined.

(** X16. Unsubmit from end to end: for an authenticated user whose DELETE
    request goes out and whose answer can be read, the action sends that one
    request and then prints one line: the success message when the service
    answered 204, and otherwise the error, which is
    [Status: <code>, Error: <message>] for a body that parses and the
    decoder's own message for one that does not. *)
Theorem unsubmit_end_to_end (env : Main.Env) (ctx : Main.Context)
    (c : Config.Config) (resp : Response) (body : string) (w : World) :
  let url := Config.Hostname c +:+ "/" +:+ "api/v1/user/assignments" +:+ "?key="
               +:+ Config.APIKey c in
  let req := Header_Set "User-Agent" (Main.UserAgent env)
               {| Method := "DELETE"; URL := url; Header := ∅; Body := None |} in
  Main.config_Read env (Main.GlobalString_config ctx) = (c, None) ->
  Main.IsAuthenticated env c = true ->
  Main.NewRequest_error env "DELETE" url = None ->
  Main.Do env req = inl resp ->
  ReadAll resp = (body, None) ->
  let printed := events_since w (Main.unsubmitAction env ctx w).2 in
  (StatusCode resp = 204 ->
   printed = [EvRequest req;
              EvPrint ("The last submission was successfully deleted." +:+ newline)]) /\
  (StatusCode resp <> 204 ->
   (forall msg, Main.Unmarshal_unsubmitError env body = inl msg ->
      printed = [EvRequest req;
                 EvPrint ("Status: " +:+ pretty (StatusCode resp) +:+ ", Error: "
                          +:+ msg +:+ newline)]) /\
   (forall e, Main.Unmarshal_unsubmitError env body = inr e ->
      printed = [EvRequest req; EvPrint (error_Error e +:+ newline)])).
Proof.
  intros url req Hcfg Hauth Hnew Hdo Hread printed.
  assert (forall line,
            events_since w
              (emit (EvPrint line) (emit (EvRequest req) w).2).2 =
            [EvRequest req; EvPrint line]) as Hev.
  { intros line. apply extends_by_events.
    eapply (extends_by_trans [_] [_]); apply emit_extends. }
  assert (Main.unsubmitAction env ctx w =
          (let* err := Main.UnsubmitAssignment env c in
           match err with
           | Some err => emit (EvPrint (error_Error err +:+ newline))
           | None => emit (EvPrint ("The last submission was successfully deleted."
                                    +:+ newline))
           end) w) as Hact.
  { unfold Main.unsubmitAction. by rewrite Hcfg, Hauth. }
  subst printed. rewrite Hact. unfold bind.
  rewrite (UnsubmitAssignment_answer env c w resp body Hnew Hdo Hread).
  split.
  - intros ->. apply Hev.
  - intros Hcode. apply Z.eqb_neq in Hcode. rewrite Hcode. split.
    + intros msg ->. unfold error_Error.
      rewrite <- Hev. by rewrite !str_app_assoc.
    + intros e ->. apply Hev.
Qed.

Lemma unsubmit_end_to_end_witness :
  events_since empty_world
    (Main.unsubmitAction (demo_env reply_no_content) (submit_ctx "") empty_world).2 =
    [EvRequest
       (Header_Set "User-Agent" "github.com/exercism/cli v1.7.0 (linux/amd64)"
          {| Method := "DELETE";
             URL := "http://exercism.io/api/v1/user/assignments?key=abc123";
             Header := ∅; Body := None |});
     EvPrint ("The last submission was successfully deleted." +:+ newline)] /\
  events_since empty_world
    (Main.unsubmitAction (demo_env reply_not_found) (submit_ctx "") empty_world).2 =
    [EvRequest
       (Header_Set "User-Agent" "github.com/exercism/cli v1.7.0 (linux/amd64)"
          {| Method := "DELETE";
             URL := "http://exercism.io/api/v1/user/assignments?key=abc123";
             Header := ∅; Body := None |});
     EvPrint ("Status: 404, Error: not found" +:+ newline)].
Proof.
  split.
  - apply (unsubmit_end_to_end (demo_env reply_no_content) (submit_ctx "") demo_config
             {| StatusCode := 204; ReadAll := ("", None) |} "" empty_world);
      reflexivity.
  - destruct (unsubmit_end_to_end (demo_env reply_not_found) (submit_ctx "")
                demo_config
                {| StatusCode := 404;
                   ReadAll := ("{" +:+ FlatJSON.quoted "Error" +:+ ":"
                               +:+ FlatJSON.quoted "not found" +:+ "}", None) |}
                ("{" +:+ FlatJSON.quoted "Error" +:+ ":"
                 +:+ FlatJSON.quoted "not found" +:+ "}") empty_world
                (reflexivity _) (reflexivity _) (reflexivity _) (reflexivity _)
                (reflexivity _)) as [_ H].
    destruct H as [H _]; [discriminate |].
    apply (H "not found"). vm_compute. reflexivity.
Defined.

(** One line printed after an exchange. *)
Lemma report_after_exchange w w1 line :
  w1 = w \/ (exists req, w1 = (emit (EvRequest req) w).2) ->
  exists reqs,
    events_since w (emit (EvPrint line) w1).2 = reqs ++ [EvPrint line] /\
    (length reqs <= 1)%nat /\ Forall (fun e => is_request e = true) reqs /\
    nodes (emit (EvPrint line) w1).2 = nodes w.
Proof.
  intros (reqs & Hext & Hnodes & Hlen & Hreq)%one_request_further.
  exists reqs. split; [| done].
  apply extends_by_events. eapply extends_by_trans; [exact Hext | apply emit_extends].
Qed.

(** X17. Whatever the arguments, the configuration, the disk and the
    service do, each of the two actions prints exactly one line, and that
    line is the last thing it does; before it, at most one request is sent,
    and the file tree is never changed. *)
Theorem actions_report_once (env : Main.Env) (ctx : Main.Context) (w : World) :
  Forall (fun w' =>
            exists reqs line,
              events_since w w' = reqs ++ [EvPrint line] /\
              (length reqs <= 1)%nat /\
              Forall (fun e => is_request e = true) reqs /\
              nodes w' = nodes w)
    [(Main.submitAction env ctx w).2; (Main.unsubmitAction env ctx w).2].
Proof.
  assert (forall w',
            (exists line w1, w' = (emit (EvPrint line) w1).2 /\
               (w1 = w \/ exists req, w1 = (emit (EvRequest req) w).2)) ->
            exists reqs line,
              events_since w w' = reqs ++ [EvPrint line] /\
              (length reqs <= 1)%nat /\
              Forall (fun e => is_request e = true) reqs /\
              nodes w' = nodes w) as Hsay.
  { intros w' (line & w1 & -> & (reqs & H)%(report_after_exchange _ _ line)).
    by exists reqs, line. }
  constructor; [| constructor; [| constructor]]; apply Hsay.
  - unfold Main.submitAction, Printf.
    destruct (Main.Args ctx) as [|filename rest];
      [eexists _, w; split; [reflexivity | by left] |].
    destruct (Main.config_Read env _) as [c [err|]];
      [eexists _, w; split; [reflexivity | by left] |].
    destruct (Main.IsAuthenticated env c);
      [| eexists _, w; split; [reflexivity | by left]].
    unfold negb, bind at 1.
    pose proof (absolutePath_world env filename w) as Hw.
    destruct (Main.absolutePath env filename w) as [[absPath [err|]] w1];
      simpl in Hw; subst w1; [eexists _, w; split; [reflexivity | by left] |].
    destruct (Strings.HasPrefix absPath _);
      [| eexists _, w; split; [reflexivity | by left]].
    destruct (Main.IsTest _); [eexists _, w; split; [reflexivity | by left] |].
    unfold bind at 1.
    pose proof (ReadFile_world absPath w) as Hw.
    destruct (Main.ReadFile absPath w) as [[code [err|]] w1];
      simpl in Hw; subst w1; [eexists _, w; split; [reflexivity | by left] |].
    unfold bind.
    pose proof (SubmitAssignment_world env c
                  (Strings.slice_from
                     (String.length (Config.Dir c +:+ String (Main.Separator env) ""))
                     absPath) code w) as Hw.
    pose proof (SubmitAssignment_result env c
                  (Strings.slice_from
                     (String.length (Config.Dir c +:+ String (Main.Separator env) ""))
                     absPath) code w) as Hres.
    destruct (Main.SubmitAssignment env c _ code w) as [[response err] w1].
    simpl in Hw, Hres. unfold Main.submitReport, Printf.
    destruct err as [err|]; [destruct response; by eexists _, w1 |].
    destruct Hres as [r ->]; [done |]. by eexists _, w1.
  - unfold Main.unsubmitAction.
    destruct (Main.config_Read env _) as [c [err|]];
      [eexists _, w; split; [reflexivity | by left] |].
    destruct (Main.IsAuthenticated env c);
      [| eexists _, w; split; [reflexivity | by left]].
    unfold negb, bind.
    pose proof (UnsubmitAssignment_world env c w) as Hw.
    destruct (Main.UnsubmitAssignment env c w) as [[err|] w1]; by eexists _, w1.
Qed.
